(** * AI governance assessment: the assessment route and the checklist form

    A shallow embedding of the request handlers of the assessment API route
    (determineApplicableRisks, handleStandardAssessment,
    handleChecklistAssessment) and of the checklist form component
    (isFormComplete, submitChecklist), together with a model of the gap
    analysis scorer the route imports from utils/gapAnalysis.

    JavaScript objects whose key order is observable (Object.entries,
    Object.values, Object.keys) are association lists in insertion order;
    the form's [responses] state and the scorer's mappings are finite maps.
    Numbers that the code only ever builds from integers are [Z]; the
    compliance score, which divides, is an exact rational. *)

From Stdlib Require Import ZArith QArith Qround Qminmax Lia Lqa Ascii.
From Stdlib Require Import Sorting.Sorted Sorting.Permutation.
From stdpp Require Import base option list gmap strings pretty.

Close Scope Q_scope.
Open Scope string_scope.
Open Scope Z_scope.

(** ** JavaScript values and objects *)

(** The values that cross the JSON boundary. [JUndefined] is a missing
    property; JSON.stringify drops it. *)
#[warnings="-register-all"]
Inductive JSValue : Type :=
  | JUndefined
  | JNull
  | JBool (b : bool)
  | JNum (q : Q)
  | JStr (s : string)
  | JArr (items : list JSValue)
  | JObj (fields : list (string * JSValue)).

(** An object with string keys, in insertion order. *)
Definition JSObject (V : Type) : Type := list (string * V).

Fixpoint obj_get {V} (o : JSObject V) (k : string) : option V :=
  match o with
  | [] => None
  | (k', v) :: rest => if String.eqb k' k then Some v else obj_get rest k
  end.

(** [o[k] = v]: overwrite in place when the key exists, append otherwise. *)
Fixpoint obj_set {V} (o : JSObject V) (k : string) (v : V) : JSObject V :=
  match o with
  | [] => [(k, v)]
  | (k', v') :: rest =>
      if String.eqb k' k then (k', v) :: rest else (k', v') :: obj_set rest k v
  end.

Definition Object_keys {V} (o : JSObject V) : list string := map fst o.
Definition Object_values {V} (o : JSObject V) : list V := map snd o.
Definition Object_entries {V} (o : JSObject V) : list (string * V) := o.

(** JavaScript truthiness, as used by [!x], [x || y] and [if (x)]. *)
Definition truthy (v : JSValue) : bool :=
  match v with
  | JUndefined | JNull => false
  | JBool b => b
  | JNum q => negb (Qeq_bool q 0)
  | JStr s => negb (String.eqb s "")
  | JArr _ | JObj _ => true
  end.

(** Property read [v.k]. Reading a property of [undefined] or [null] throws
    a TypeError ([None]); every other non-object yields [undefined] for the
    keys used here. *)
Definition get_prop (v : JSValue) (k : string) : option JSValue :=
  match v with
  | JUndefined | JNull => None
  | JObj fields => Some (default JUndefined (obj_get fields k))
  | _ => Some JUndefined
  end.

Definition Array_isArray (v : JSValue) : bool :=
  match v with JArr _ => true | _ => false end.

(** [Array.prototype.push] on an immutable list. *)
Definition push {A} (l : list A) (x : A) : list A := l ++ [x].

(** [new Set(arr)] followed by spread: insertion order, first occurrence
    kept. *)
Definition Set_add (s : list string) (x : string) : list string :=
  if existsb (String.eqb x) s then s else push s x.

Definition Set_from (l : list string) : list string :=
  fold_left Set_add l [].

(** ** User inputs *)

(** The form posts strings; a field that is missing (or not a string) never
    compares [===] to a string literal, so it is [None] here. *)
Record UserInputs : Type := {
  productName : option string;
  productManagerName : option string;
  productManagerEmail : option string;
  aiModel : option string;
  useCase : option string;
  dataSensitivity : option string;
  industry : option string;
  accuracyReq : option string
}.

(** [field === 'lit'] *)
Definition is_ (field : option string) (lit : string) : bool :=
  match field with
  | Some s => String.eqb s lit
  | None => false
  end.

(** [field || 'fallback'] for a string-or-undefined field. *)
Definition or_else (field : option string) (fallback : string) : string :=
  match field with
  | Some s => if String.eqb s "" then fallback else s
  | None => fallback
  end.

(** ** determineApplicableRisks *)

Definition hallucinationRule (u : UserInputs) : bool :=
  is_ (accuracyReq u) "critical" ||
  is_ (accuracyReq u) "high" ||
  is_ (industry u) "financial" ||
  is_ (industry u) "healthcare" ||
  is_ (useCase u) "decisionSupport" ||
  is_ (useCase u) "dataAnalysis".

Definition promptInjectionRule (u : UserInputs) : bool :=
  is_ (useCase u) "customerService" ||
  is_ (useCase u) "documentAnalysis" ||
  is_ (aiModel u) "thirdParty" ||
  is_ (aiModel u) "apiBased" ||
  is_ (dataSensitivity u) "confidential" ||
  is_ (dataSensitivity u) "restricted".

Definition dataLeakageRule (u : UserInputs) : bool :=
  is_ (aiModel u) "thirdParty" ||
  is_ (aiModel u) "apiBased" ||
  is_ (dataSensitivity u) "confidential" ||
  is_ (dataSensitivity u) "restricted" ||
  is_ (industry u) "financial" ||
  is_ (industry u) "healthcare".

Definition determineApplicableRisks (u : UserInputs) : list string :=
  let r0 : list string := [] in
  let r1 := if hallucinationRule u then push r0 "hallucination" else r0 in
  let r2 := if promptInjectionRule u then push r1 "promptInjection" else r1 in
  let r3 := if dataLeakageRule u then push r2 "dataLeakage" else r2 in
  let r4 := if (length r3 =? 0)%nat then push r3 "promptInjection" else r3 in
  Set_from r4.

(** ** Base risk scores of the checklist path *)

Definition thirdPartyOrApi (u : UserInputs) : bool :=
  is_ (aiModel u) "thirdParty" || is_ (aiModel u) "apiBased".

Definition baseScoreOf (u : UserInputs) (risk : string) : Z :=
  if String.eqb risk "dataLeakage" && thirdPartyOrApi u then 80
  else if String.eqb risk "hallucination" && is_ (accuracyReq u) "critical" then 85
  else if String.eqb risk "promptInjection" && is_ (useCase u) "customerService" then 75
  else 70.

(** The [forEach] over [applicableRisks] that fills [baseRiskScores]. *)
Definition baseRiskScores (u : UserInputs) (applicableRisks : list string)
  : JSObject Z :=
  fold_left (fun o risk => obj_set o risk (baseScoreOf u risk)) applicableRisks [].

(** ** Framework reference data *)

(** The FINOS framework files under data/ are JSON documents read at request
    time; the handlers read these fields of them. An absent array is
    [None]. *)
Record Mitigation : Type := {
  mitigationRefId : string;        (* mitigation.id *)
  mitigationRefName : string;      (* mitigation.name *)
  mitigationDescription : string   (* mitigation.description *)
}.

Record Factor : Type := {
  factorName : string;             (* factor.factor *)
  factorDescription : string       (* factor.description *)
}.

Record FrameworkExample : Type := {
  exampleRefTitle : string;        (* example.title *)
  exampleDescription : string      (* example.description *)
}.

Record Framework : Type := {
  frameworkId : string;            (* framework.id *)
  frameworkTitle : string;         (* framework.title *)
  key_mitigations : option (list Mitigation);
  contributing_factors : option (list Factor);
  examples : option (list FrameworkExample)
}.

(** ** handleStandardAssessment *)

(** [text.match(/\{[\s\S]*\}/)]: the match starts at the first opening
    brace and, the star being greedy, ends at the last closing brace after
    it. *)
Fixpoint dropToOpen (s : string) : option string :=
  match s with
  | EmptyString => None
  | String c rest => if Ascii.eqb c "{"%char then Some s else dropToOpen rest
  end.

Fixpoint takeToLastClose (s : string) : option string :=
  match s with
  | EmptyString => None
  | String c rest =>
      match takeToLastClose rest with
      | Some m => Some (String c m)
      | None => if Ascii.eqb c "}"%char then Some (String c EmptyString) else None
      end
  end.

Definition extractJsonFromResponse (text : string) : string :=
  if String.eqb text "" then "{}"
  else match dropToOpen text ≫= takeToLastClose with
       | Some m => m
       | None => "{}"
       end.

Definition fallbackComplianceScore (u : UserInputs) : Z :=
  if is_ (dataSensitivity u) "restricted" then 45
  else if is_ (dataSensitivity u) "confidential" then 55
  else if thirdPartyOrApi u then 60
  else 70.

Definition fallbackRiskScore (u : UserInputs) (risk : string) : Z :=
  if String.eqb risk "dataLeakage" && thirdPartyOrApi u then 75
  else if String.eqb risk "hallucination" && is_ (accuracyReq u) "critical" then 80
  else if String.eqb risk "promptInjection" && is_ (useCase u) "customerService" then 70
  else 60.

(** [Object.fromEntries]: a later entry with the same key overwrites. *)
Definition Object_fromEntries {V} (entries : list (string * V)) : JSObject V :=
  fold_left (fun o e => obj_set o (fst e) (snd e)) entries [].

Definition fallbackAnalysis (u : UserInputs) (applicableRisks : list string)
  : string :=
  "Assessment completed for your " ++ or_else (industry u) "industry" ++
  " AI system using " ++ or_else (aiModel u) "AI model" ++
  " for " ++ or_else (useCase u) "use case" ++
  ". The system requires attention in the assessed risk areas based on data sensitivity level (" ++
  or_else (dataSensitivity u) "not specified" ++
  ") and accuracy requirements (" ++
  or_else (accuracyReq u) "not specified" ++
  "). Review the FINOS framework recommendations for " ++
  String.concat ", " applicableRisks ++ " risks.".

Definition JInt (n : Z) : JSValue := JNum (inject_Z n).

Definition JStrings (l : list string) : JSValue := JArr (map JStr l).

(** A string-or-undefined field as a value. *)
Definition JOpt (field : option string) : JSValue :=
  match field with
  | Some s => JStr s
  | None => JUndefined
  end.

Definition fallbackAssessment (u : UserInputs) (applicableRisks : list string)
  : JSObject JSValue :=
  [ ("overallScore", JInt (fallbackComplianceScore u));
    ("riskScores",
      JObj (Object_fromEntries
              (map (fun risk => (risk, JInt (fallbackRiskScore u risk)))
                   applicableRisks)));
    ("analysis", JStr (fallbackAnalysis u applicableRisks));
    ("riskMitigations",
      JArr [ JObj [ ("riskId", JStr "AIR-PREV-005");
                    ("riskName", JStr "System Acceptance Testing");
                    ("mitigationId", JStr "AIR-PREV-005");
                    ("mitigationName", JStr "System Acceptance Testing");
                    ("priority", JStr "High");
                    ("summary",
                      JStr "Essential for validating system behavior before deployment") ] ]);
    ("contributingFactors", JArr []);
    ("relevantExamples", JArr []);
    ("assessedRisks", JStrings applicableRisks) ].

Definition productInfo (u : UserInputs) : JSValue :=
  JObj [ ("productName", JOpt (productName u));
         ("productManagerName", JOpt (productManagerName u));
         ("productManagerEmail", JOpt (productManagerEmail u)) ].

(** What the text-generation call gave back: the message content (which the
    client types as string-or-null) and the token count, when reported. *)
Record Completion : Type := {
  content : option string;
  total_tokens : option Z
}.

(** What a handler does: it answers with a JSON body, or it throws and
    leaves the answer to its caller. *)
Inductive HandlerOutcome : Type :=
  | Responded (body : JSObject JSValue)
  | Threw.

Section StandardAssessment.

(** [JSON.parse]; [None] is a SyntaxError. *)
Variable JSON_parse : string -> option JSValue.

(** The body of the [try] block: [Some r] when it runs to its end with
    [assessmentResult = r], [None] when it throws (a SyntaxError from the
    parser, a TypeError from reading a property, or the explicit
    'Missing required fields' error). *)
Definition parseAssessment (responseText : option string)
  : option (JSObject JSValue) :=
  let cleanedResponse := extractJsonFromResponse (or_else responseText "{}") in
  r ← JSON_parse cleanedResponse;
  overall ← get_prop r "overallScore";
  scores ← get_prop r "riskScores";
  if negb (truthy overall) || negb (truthy scores) then None
  else match r with
       | JObj fields => Some fields
       | _ => None
       end.

(** [completion] is [None] when the text-generation call itself rejects or
    returns no first choice: that code is outside the [try] block. The
    prompt only reaches the external service and is not part of the
    model. *)
Definition handleStandardAssessment (u : UserInputs)
    (applicableRisks : list string) (frameworks : JSObject Framework)
    (completion : option Completion) : HandlerOutcome :=
  match completion with
  | None => Threw
  | Some c =>
      let assessmentResult :=
        match parseAssessment (content c) with
        | Some r => r
        | None => fallbackAssessment u applicableRisks
        end in
      Responded
        [ ("success", JBool true);
          ("assessment", JObj (obj_set assessmentResult "productInfo" (productInfo u)));
          ("tokensUsed",
            JInt (match total_tokens c with Some n => n | None => 0 end));
          ("assessedRisks", JStrings applicableRisks);
          ("frameworksLoaded", JStrings (Object_keys frameworks)) ]
  end.

End StandardAssessment.

(** ** Checklist data *)

(** The three risk classes a checklist question can belong to; as object
    keys they are the strings of [categoryKey]. *)
Inductive RiskCategory : Type :=
  | Hallucination
  | PromptInjection
  | DataLeakage.

Definition categoryKey (c : RiskCategory) : string :=
  match c with
  | Hallucination => "hallucination"
  | PromptInjection => "promptInjection"
  | DataLeakage => "dataLeakage"
  end.

(** ['yes' | 'no' | 'na'] *)
Inductive ChecklistAnswer : Type :=
  | Yes
  | No
  | NA.

Definition answerText (a : ChecklistAnswer) : string :=
  match a with
  | Yes => "yes"
  | No => "no"
  | NA => "na"
  end.

Record ChecklistQuestion : Type := {
  id : Z;
  category : RiskCategory;
  question : string;
  purpose : string;
  weight : Z
}.

(** [answer] is whatever [responses[question.id]] held: [None] is
    [undefined]. *)
Record ChecklistResponse : Type := {
  questionId : Z;
  answer : option ChecklistAnswer
}.

Record ChecklistData : Type := {
  hallucination : list ChecklistResponse;
  promptInjection : list ChecklistResponse;
  dataLeakage : list ChecklistResponse
}.

Record ImplementationStatus : Type := {
  implemented : bool;
  statusCategory : RiskCategory;
  statusWeight : Z
}.

(** The gap analysis the scorer returns; [implementationStatus] is an object
    keyed by question id, in its enumeration order. *)
Record GapAnalysisResult : Type := {
  totalRiskReduction : Z;
  gapPercentage : Q;
  implementationStatus : list (Z * ImplementationStatus)
}.

(** ** handleChecklistAssessment *)

Record RiskMitigation : Type := {
  riskId : string;
  riskName : string;
  mitigationId : string;
  mitigationName : string;
  priority : string;
  summary : string
}.

Record ContributingFactor : Type := {
  factorRiskId : string;           (* riskId *)
  factor : string;
  relevance : string;
  explanation : string
}.

Record RelevantExample : Type := {
  exampleRiskId : string;          (* riskId *)
  exampleTitle : string;
  relevanceToSystem : string
}.

Record GapSummary : Type := {
  implementedControls : nat;
  totalControls : nat;
  summaryGapPercentage : Q;        (* gapPercentage *)
  riskReduction : Z
}.

(** [overallScore] is [None] when the arithmetic produced NaN. *)
Record AssessmentResult : Type := {
  overallScore : option Z;
  riskScores : JSObject Z;
  analysis : string;
  riskMitigations : list RiskMitigation;
  contributingFactors : list ContributingFactor;
  relevantExamples : list RelevantExample;
  assessedRisks : list string;
  gapAnalysis : GapSummary
}.

Record ChecklistResponseBody : Type := {
  success : bool;
  assessment : AssessmentResult;
  assessmentProductInfo : JSValue; (* assessment.productInfo *)
  tokensUsed : Z;
  responseAssessedRisks : list string;
  frameworksLoaded : list string;
  assessmentType : string
}.

(** [values.reduce((a, b) => a + b, 0)] *)
Definition sumScores (values : list Z) : Z := fold_left Z.add values 0.

(** The average of the adjusted scores; [0 / 0] is NaN. *)
Definition avgRiskScore (adjustedRiskScores : JSObject Z) : option Q :=
  let values := Object_values adjustedRiskScores in
  if (length values =? 0)%nat then None
  else Some (inject_Z (sumScores values) / inject_Z (Z.of_nat (length values)))%Q.

(** [Math.max(10, Math.min(100, 100 - avgRiskScore + totalRiskReduction / 2))];
    NaN goes through [Math.min] and [Math.max] unchanged. The value is the
    exact rational: with integer scores the double the code computes is
    exact whenever the result is an integer or a half, and otherwise lies
    much closer to the rational than the rational lies to a rounding tie, so
    [Math.round] sees the same integer. *)
Definition rawOverallScore (adjustedRiskScores : JSObject Z)
    (gap : GapAnalysisResult) : option Q :=
  avg ← avgRiskScore adjustedRiskScores;
  Some (Qmax 10 (Qmin 100
          (100 - avg + inject_Z (totalRiskReduction gap) / 2)))%Q.

(** [Math.round]: the nearest integer, a tie going up. *)
Definition Math_round (x : Q) : Z := Qfloor (x + (1 # 2))%Q.

Definition priorityOf (score : Z) : string :=
  if 70 <=? score then "High"
  else if 60 <=? score then "Medium"
  else "Low".

Definition frameworkKeyOf (riskKey : string) : option string :=
  if String.eqb riskKey "hallucination" then Some "hallucination"
  else if String.eqb riskKey "promptInjection" then Some "promptInjection"
  else if String.eqb riskKey "dataLeakage" then Some "dataLeakage"
  else None.

(** A template literal prints a missing field as the word undefined. *)
Definition templated (field : option string) : string :=
  match field with
  | Some s => s
  | None => "undefined"
  end.

(** The three arrays the loop over the adjusted scores pushes into. *)
Record Findings : Type := {
  finosRiskMitigations : list RiskMitigation;
  foundFactors : list ContributingFactor;       (* contributingFactors *)
  foundExamples : list RelevantExample          (* relevantExamples *)
}.

Definition mitigationsOf (fw : Framework) (score : Z) : list RiskMitigation :=
  match key_mitigations fw with
  | Some ms =>
      map (fun m => {| riskId := frameworkId fw;
                       riskName := frameworkTitle fw;
                       mitigationId := mitigationRefId m;
                       mitigationName := mitigationRefName m;
                       priority := priorityOf score;
                       summary := mitigationDescription m |}) ms
  | None => []
  end.

Definition factorsOf (fw : Framework) (score : Z) : list ContributingFactor :=
  match contributing_factors fw with
  | Some fs =>
      map (fun f => {| factorRiskId := frameworkId fw;
                       factor := factorName f;
                       relevance := priorityOf score;
                       explanation := factorDescription f |}) (take 2 fs)
  | None => []
  end.

Definition examplesOf (u : UserInputs) (fw : Framework) : list RelevantExample :=
  match examples fw with
  | Some es =>
      map (fun e => {| exampleRiskId := frameworkId fw;
                       exampleTitle := exampleRefTitle e;
                       relevanceToSystem :=
                         "This example applies to your " ++ templated (useCase u) ++
                         " system: " ++ String.substring 0 150 (exampleDescription e) ++
                         "..." |}) (take 1 es)
  | None => []
  end.

(** One iteration of the loop, for the entry [riskKey: score]. *)
Definition collectFindings (u : UserInputs) (frameworks : JSObject Framework)
    (acc : Findings) (entry : string * Z) : Findings :=
  let '(riskKey, score) := entry in
  if 50 <=? score then
    match frameworkKeyOf riskKey ≫= obj_get frameworks with
    | Some fw =>
        {| finosRiskMitigations := finosRiskMitigations acc ++ mitigationsOf fw score;
           foundFactors := foundFactors acc ++ factorsOf fw score;
           foundExamples := foundExamples acc ++ examplesOf u fw |}
    | None => acc
    end
  else acc.

Definition findings (u : UserInputs) (frameworks : JSObject Framework)
    (adjustedRiskScores : JSObject Z) : Findings :=
  fold_left (collectFindings u frameworks) (Object_entries adjustedRiskScores)
    {| finosRiskMitigations := []; foundFactors := []; foundExamples := [] |}.

(** The analysis request to the text-generation service sits in its own
    [try] block: it yields the message content, or it fails. *)
Inductive AnalysisCall : Type :=
  | AnalysisContent (text : option string)
  | AnalysisFailed.

Section ChecklistAssessment.

(** The question catalog of components/checklistData and the scorer of
    utils/gapAnalysis are imported by the route; the handler is modelled
    over whatever they are. The handler also calls
    generateGapRecommendations and never reads what it returns. *)
Variable checklistQuestions : list ChecklistQuestion.
Variable calculateRiskScoresWithGaps :
  JSObject Z -> ChecklistData -> JSObject Z * GapAnalysisResult.

(** The loop over [Object.entries(gapAnalysis.implementationStatus)] that
    fills [implementedControls] ([wanted = true]) and [missingControls]
    ([wanted = false]). *)
Definition controlsWith (gap : GapAnalysisResult) (wanted : bool) : list string :=
  omap (fun entry : Z * ImplementationStatus =>
          match List.find (fun q => id q =? fst entry) checklistQuestions with
          | Some q =>
              if Bool.eqb (implemented (snd entry)) wanted
              then Some (question q ++ " (" ++ purpose q ++ ")")
              else None
          | None => None
          end)
       (implementationStatus gap).

Definition analysisFallback (u : UserInputs) (adjustedRiskScores : JSObject Z)
    (gap : GapAnalysisResult) : string :=
  let implementedCount := length (controlsWith gap true) in
  let missingCount := length (controlsWith gap false) in
  "Based on your inputs and current implementations, it is analyzed that you have implemented " ++
  pretty implementedCount ++ " out of " ++
  pretty (implementedCount + missingCount)%nat ++
  " critical controls for your " ++ or_else (industry u) "industry" ++
  " AI system. Your implemented controls have achieved " ++
  pretty (totalRiskReduction gap) ++
  " points of risk reduction. However, you still have " ++
  pretty (length (filter (fun e : string * Z => 60 <= snd e)
                         (Object_entries adjustedRiskScores))) ++
  " risk areas that can affect your system and require attention. The related mitigations for possible risks are provided below.".

Definition aiGeneratedAnalysis (u : UserInputs) (adjustedRiskScores : JSObject Z)
    (gap : GapAnalysisResult) (call : AnalysisCall) : string :=
  match call with
  | AnalysisContent text => or_else text ""
  | AnalysisFailed => analysisFallback u adjustedRiskScores gap
  end.

Definition handleChecklistAssessment (u : UserInputs)
    (applicableRisks : list string) (frameworks : JSObject Framework)
    (checklistData : ChecklistData) (call : AnalysisCall)
  : ChecklistResponseBody :=
  let '(adjustedRiskScores, gap) :=
    calculateRiskScoresWithGaps (baseRiskScores u applicableRisks) checklistData in
  let found := findings u frameworks adjustedRiskScores in
  let implementedCount :=
    length (filter (fun e : Z * ImplementationStatus => implemented (snd e) = true)
                   (implementationStatus gap)) in
  let totalCount := length (implementationStatus gap) in
  {| success := true;
     assessment :=
       {| overallScore := Math_round <$> rawOverallScore adjustedRiskScores gap;
          riskScores := adjustedRiskScores;
          analysis := aiGeneratedAnalysis u adjustedRiskScores gap call;
          riskMitigations := finosRiskMitigations found;
          contributingFactors := foundFactors found;
          relevantExamples := foundExamples found;
          assessedRisks := applicableRisks;
          gapAnalysis :=
            {| implementedControls := implementedCount;
               totalControls := totalCount;
               summaryGapPercentage := gapPercentage gap;
               riskReduction := totalRiskReduction gap |} |};
     assessmentProductInfo := productInfo u;
     tokensUsed := 0;
     responseAssessedRisks := applicableRisks;
     frameworksLoaded := Object_keys frameworks;
     assessmentType := "gap_analysis" |}.

End ChecklistAssessment.

(** ** The checklist form: isFormComplete and submitChecklist *)

(** What the form sends: [JSON.stringify] of this record is the request
    body. *)
Record AssessRequest : Type := {
  reqUserInputs : JSValue;         (* userInputs: formData *)
  hasRiskAssessment : bool;
  reqChecklistData : ChecklistData (* checklistData *)
}.

Definition responseToJSON (r : ChecklistResponse) : JSValue :=
  JObj [ ("questionId", JInt (questionId r));
         ("answer", match answer r with
                    | Some a => JStr (answerText a)
                    | None => JUndefined
                    end) ].

Definition checklistDataToJSON (d : ChecklistData) : JSValue :=
  JObj [ ("hallucination", JArr (map responseToJSON (hallucination d)));
         ("promptInjection", JArr (map responseToJSON (promptInjection d)));
         ("dataLeakage", JArr (map responseToJSON (dataLeakage d))) ].

Definition requestToJSON (r : AssessRequest) : JSValue :=
  JObj [ ("userInputs", reqUserInputs r);
         ("hasRiskAssessment", JBool (hasRiskAssessment r));
         ("checklistData", checklistDataToJSON (reqChecklistData r)) ].

(** Every record of a submission, category by category. *)
Definition allResponses (d : ChecklistData) : list ChecklistResponse :=
  hallucination d ++ promptInjection d ++ dataLeakage d.

(** What [submitChecklist] does to the world, in order. The setters it is
    given are the only state it can change. *)
Inductive Effect : Type :=
  | Alert (message : string)
  | AlertFailed (error : JSValue)  (* alert('Assessment failed: ' + result.error) *)
  | SetIsLoading (loading : bool)
  | Fetch (url : string) (request : AssessRequest)
  | OnComplete (result : JSValue)
  | ConsoleError.

(** How the request ends: the parsed response body, or a rejection of
    [fetch] or of [response.json()]. *)
Inductive FetchOutcome : Type :=
  | FetchResolved (result : JSValue)
  | FetchRejected.

Section ChecklistForm.

Variable checklistQuestions : list ChecklistQuestion.

Definition isFormComplete (responses : gmap Z ChecklistAnswer) : bool :=
  forallb (fun q => bool_decide (responses !! id q ≠ None)) checklistQuestions.

(** [checklistData[question.category].push(response)] *)
Definition pushResponse (d : ChecklistData) (c : RiskCategory)
    (r : ChecklistResponse) : ChecklistData :=
  match c with
  | Hallucination =>
      {| hallucination := push (hallucination d) r;
         promptInjection := promptInjection d;
         dataLeakage := dataLeakage d |}
  | PromptInjection =>
      {| hallucination := hallucination d;
         promptInjection := push (promptInjection d) r;
         dataLeakage := dataLeakage d |}
  | DataLeakage =>
      {| hallucination := hallucination d;
         promptInjection := promptInjection d;
         dataLeakage := push (dataLeakage d) r |}
  end.

(** [const response = { questionId: question.id, answer: responses[question.id] }] *)
Definition responseFor (responses : gmap Z ChecklistAnswer)
    (q : ChecklistQuestion) : ChecklistResponse :=
  {| questionId := id q; answer := responses !! id q |}.

(** "Organize responses by category". *)
Definition organizeResponses (responses : gmap Z ChecklistAnswer) : ChecklistData :=
  fold_left
    (fun d q => pushResponse d (category q) (responseFor responses q))
    checklistQuestions
    {| hallucination := []; promptInjection := []; dataLeakage := [] |}.

Definition afterFetch (outcome : FetchOutcome) : list Effect :=
  match outcome with
  | FetchResolved result =>
      match get_prop result "success" with
      | Some ok =>
          if truthy ok
          then [OnComplete (default JUndefined (get_prop result "assessment"))]
          else [AlertFailed (default JUndefined (get_prop result "error"))]
      | None => [Alert "Error performing assessment"; ConsoleError]
      end
  | FetchRejected => [Alert "Error performing assessment"; ConsoleError]
  end.

Definition submitChecklist (formData : JSValue)
    (responses : gmap Z ChecklistAnswer) (outcome : FetchOutcome) : list Effect :=
  if negb (isFormComplete responses) then
    [Alert "Please answer all questions before submitting"]
  else
    let checklistData := organizeResponses responses in
    [SetIsLoading true;
     Fetch "/api/assess"
       {| reqUserInputs := formData;
          hasRiskAssessment := true;
          reqChecklistData := checklistData |}]
    ++ afterFetch outcome
    ++ [SetIsLoading false].

End ChecklistForm.

(** ** The gap analysis scorer (utils/gapAnalysis) *)

#[global] Instance RiskCategory_eq_dec : EqDecision RiskCategory.
Proof. solve_decision. Defined.

#[global] Instance ChecklistAnswer_eq_dec : EqDecision ChecklistAnswer.
Proof. solve_decision. Defined.

#[global] Instance RiskCategory_countable : Countable RiskCategory.
Proof.
  refine (inj_countable'
            (fun c => match c with
                      | Hallucination => 0%nat
                      | PromptInjection => 1%nat
                      | DataLeakage => 2%nat
                      end)
            (fun n => match n with
                      | 0%nat => Hallucination
                      | 1%nat => PromptInjection
                      | _ => DataLeakage
                      end) _).
  intros c. destruct c; reflexivity.
Defined.

Definition allCategories : list RiskCategory :=
  [Hallucination; PromptInjection; DataLeakage].

(** A recommendation record: [{questionPurpose, category, weight}]. *)
Record Recommendation : Type := {
  questionPurpose : string;
  recCategory : RiskCategory;      (* category *)
  recWeight : Z                    (* weight *)
}.

Module GapAnalysis.

Section Scorer.

(** utils/gapAnalysis.ts, which defines calculateRiskScoresWithGaps and
    generateGapRecommendations, is not among the sources. The definitions
    of this section follow the specification's component design instead
    (operation computeAdjustedScores, steps 1 to 6, and operation
    generateGapRecommendations): base scores and adjusted scores are
    mappings from risk category to integer, the answers a mapping from
    question id to answer, and the floor and the question catalog are
    configuration. *)
Variable floor : Z.
Variable questionCatalog : list ChecklistQuestion.

(** Modelled from the spec: the implemented test of the absent scorer,
    "whose answer is exactly yes"; a missing answer is not-implemented. *)
Definition answeredYes (answers : gmap Z ChecklistAnswer)
    (q : ChecklistQuestion) : bool :=
  bool_decide (answers !! id q = Some Yes).

(** Modelled from the spec: steps 1 and 2 of the absent scorer, the
    summed weights of the category's questions that are answered yes. *)
Definition rawReduction (answers : gmap Z ChecklistAnswer) (c : RiskCategory) : Z :=
  foldr (fun q acc => weight q + acc) 0
    (filter (fun q => category q = c /\ answeredYes answers q = true)
            questionCatalog).

(** Modelled from the spec: step 3 of the absent scorer,
    [adjustedScore = max(floor, baseScore - rawReduction)]. *)
Definition adjustedScore (answers : gmap Z ChecklistAnswer)
    (c : RiskCategory) (baseScore : Z) : Z :=
  Z.max floor (baseScore - rawReduction answers c).

(** Modelled from the spec: step 4 of the absent scorer, the reduction
    that is applied; "if rawReduction > baseScore - floor, the applied
    reduction is baseScore - floor". *)
Definition appliedReduction (answers : gmap Z ChecklistAnswer)
    (c : RiskCategory) (baseScore : Z) : Z :=
  let raw := rawReduction answers c in
  if baseScore - floor <? raw then baseScore - floor else raw.

(** Modelled from the spec: the adjusted scores of the absent scorer,
    one per category that has a base score. *)
Definition adjustedScores (baseScores : gmap RiskCategory Z)
    (answers : gmap Z ChecklistAnswer) : gmap RiskCategory Z :=
  map_imap (fun c b => Some (adjustedScore answers c b)) baseScores.

(** Modelled from the spec: step 4 of the absent scorer, the total is
    the sum of the applied reductions of the categories that have a base
    score. *)
Definition totalApplied (baseScores : gmap RiskCategory Z)
    (answers : gmap Z ChecklistAnswer) : Z :=
  foldr (fun c acc =>
           match baseScores !! c with
           | Some b => appliedReduction answers c b + acc
           | None => acc
           end) 0 allCategories.

(** Modelled from the spec: step 5 of the absent scorer, missing
    controls over all controls, as a percentage. *)
Definition gapPercentageOf (answers : gmap Z ChecklistAnswer) : Q :=
  (inject_Z (100 * Z.of_nat (length (filter (fun q => answeredYes answers q = false)
                                             questionCatalog)))
   / inject_Z (Z.of_nat (length questionCatalog)))%Q.

(** Modelled from the spec: step 6 of the absent scorer,
    [{implemented: answer === 'yes', category, weight}]. *)
Definition statusOf (answers : gmap Z ChecklistAnswer) (q : ChecklistQuestion)
  : Z * ImplementationStatus :=
  (id q, {| implemented := answeredYes answers q;
            statusCategory := category q;
            statusWeight := weight q |}).

(** Modelled from the spec: calculateRiskScoresWithGaps of the absent
    utils/gapAnalysis.ts, assembled from the steps above. *)
Definition calculateRiskScoresWithGaps (baseScores : gmap RiskCategory Z)
    (answers : gmap Z ChecklistAnswer) : gmap RiskCategory Z * GapAnalysisResult :=
  (adjustedScores baseScores answers,
   {| totalRiskReduction := totalApplied baseScores answers;
      gapPercentage := gapPercentageOf answers;
      implementationStatus := map (statusOf answers) questionCatalog |}).

(** Modelled from the spec: a question is not implemented when the gap
    analysis records it with [implemented = false] (the absent
    generateGapRecommendations reads the gap analysis). *)
Definition notImplemented (gap : GapAnalysisResult) (q : ChecklistQuestion) : bool :=
  match List.find (fun e : Z * ImplementationStatus => fst e =? id q)
                  (implementationStatus gap) with
  | Some e => negb (implemented (snd e))
  | None => false
  end.

(** Modelled from the spec: the order of the absent
    generateGapRecommendations; [a] comes no later than [b] when it is
    heavier, or as heavy with the smaller id. *)
Definition precedes (a b : ChecklistQuestion) : bool :=
  (weight b <? weight a) || ((weight a =? weight b) && (id a <=? id b)).

(** Modelled from the spec: the stable sort of the absent
    generateGapRecommendations, as an insertion sort. *)
Fixpoint insertByPriority (q : ChecklistQuestion) (sorted : list ChecklistQuestion)
  : list ChecklistQuestion :=
  match sorted with
  | [] => [q]
  | h :: t => if precedes q h then q :: sorted else h :: insertByPriority q t
  end.

(** Modelled from the spec: see [insertByPriority]. *)
Definition sortByPriority (qs : list ChecklistQuestion) : list ChecklistQuestion :=
  foldr insertByPriority [] qs.

(** Modelled from the spec: the not-implemented questions of the absent
    generateGapRecommendations, highest impact first. *)
Definition missingControls (gap : GapAnalysisResult) : list ChecklistQuestion :=
  sortByPriority (filter (fun q => notImplemented gap q = true) questionCatalog).

(** Modelled from the spec: the record of the absent
    generateGapRecommendations, carrying "the question's purpose text and
    its category". *)
Definition recommend (q : ChecklistQuestion) : Recommendation :=
  {| questionPurpose := purpose q;
     recCategory := category q;
     recWeight := weight q |}.

(** Modelled from the spec: generateGapRecommendations of the absent
    utils/gapAnalysis.ts, "one recommendation per not-implemented
    question, each carrying the question's purpose text and its category,
    ordered by descending weight, a stable sort tie-broken by question id
    ascending". *)
Definition generateGapRecommendations (gap : GapAnalysisResult)
  : list Recommendation :=
  map recommend (missingControls gap).

End Scorer.

End GapAnalysis.

(** ** The wording of the specification

    Definitions that follow the specification's sentences, to be compared
    with the handlers above. *)

(** "average(adjustedScores.values())" *)
Definition specAverage (values : list Z) : Q :=
  (inject_Z (foldr Z.add 0%Z values) / inject_Z (Z.of_nat (length values)))%Q.

(** "clamp(x, lo, hi)" *)
Definition specClamp (x lo hi : Q) : Q :=
  if Qlt_le_dec x lo then lo
  else if Qlt_le_dec hi x then hi
  else x.

(** "clamp(100 - average(adjustedScores.values()) + totalRiskReduction/2,
    10, 100)" *)
Definition specOverallCompliance (adjustedScores : JSObject Z)
    (totalReduction : Z) : Q :=
  specClamp (100 - specAverage (Object_values adjustedScores)
             + inject_Z totalReduction / 2)%Q 10 100.

(** "'High' when that score is at least 70, 'Medium' when at least 60, and
    'Low' otherwise" *)
Definition rated (score : Z) (level : string) : Prop :=
  (70 <= score -> level = "High") /\
  (60 <= score < 70 -> level = "Medium") /\
  (score < 60 -> level = "Low").

(** The response "fails to parse or lacks the required fields": the parser
    rejects the cleaned text, or the value it yields has no overallScore or
    no riskScores property. *)
Definition unusableResponse (JSON_parse : string -> option JSValue)
    (responseText : option string) : Prop :=
  let cleaned := extractJsonFromResponse (or_else responseText "{}") in
  JSON_parse cleaned = None \/
  exists r k,
    JSON_parse cleaned = Some r /\
    (k = "overallScore" \/ k = "riskScores") /\
    (get_prop r k = None \/ get_prop r k = Some JUndefined).

(** An entry of the adjusted scores contributes findings when its score
    is at least 50 and a framework is loaded under its key. *)
Definition contributes (frameworks : JSObject Framework)
    (entries : list (string * Z)) (riskKey : string) (score : Z)
    (fw : Framework) : Prop :=
  (riskKey, score) ∈ entries /\ 50 <= score /\ obj_get frameworks riskKey = Some fw.

(** "an ordered list of {questionId, answer}" *)
Definition isResponseList (v : JSValue) : Prop :=
  exists records : list ChecklistResponse, v = JArr (map responseToJSON records).

(** The records of one category, in catalog order. *)
Definition recordsFor (checklistQuestions : list ChecklistQuestion)
    (responses : gmap Z ChecklistAnswer) (c : RiskCategory)
  : list ChecklistResponse :=
  map (responseFor responses) (filter (fun q => category q = c) checklistQuestions).

(** "baseScores[c] - adjustedScores[c]", for a category that has both. *)
Definition reductionIn (baseScores adjustedScores : gmap RiskCategory Z)
    (c : RiskCategory) : Z :=
  match baseScores !! c, adjustedScores !! c with
  | Some b, Some a => b - a
  | _, _ => 0
  end.

(** "ordered by descending weight with ties broken by ascending question
    id" *)
Definition heavierFirst (a b : ChecklistQuestion) : Prop :=
  weight b < weight a \/ (weight a = weight b /\ id a <= id b).

(** ** The route: loadRelevantFrameworkData and POST *)

(** [applicableRisks.includes(risk)] *)
Definition includes (l : list string) (x : string) : bool :=
  existsb (String.eqb x) l.

(** [JSON.parse(fs.readFileSync(path.join(dataDir, fileName), 'utf8'))],
    with the framework fields the handlers read; [None] when reading or
    parsing throws. The three [if] blocks run in this order and the first
    throw ends the function. *)
Definition loadRelevantFrameworkData (readFramework : string -> option Framework)
    (applicableRisks : list string) : option (JSObject Framework) :=
  let selected0 : JSObject Framework := [] in
  selected1 ←
    (if includes applicableRisks "hallucination"
     then fw ← readFramework "Hallucination_and_Inaccurate_Outputs.json";
          Some (obj_set selected0 "hallucination" fw)
     else Some selected0);
  selected2 ←
    (if includes applicableRisks "promptInjection"
     then fw ← readFramework "Prompt_Injection.json";
          Some (obj_set selected1 "promptInjection" fw)
     else Some selected1);
  if includes applicableRisks "dataLeakage"
  then fw ← readFramework "Information_Leaked_To_Hosted_Model.json";
       Some (obj_set selected2 "dataLeakage" fw)
  else Some selected2.

(** A property of the posted [userInputs] as the rules see it: only a
    string can equal a string literal. *)
Definition stringField (v : JSValue) (k : string) : option string :=
  match get_prop v k with
  | Some (JStr s) => Some s
  | _ => None
  end.

(** The posted [userInputs] value as the handlers read it; [None] when it
    is [undefined] or [null], so that the first property read throws. *)
Definition userInputsOf (v : JSValue) : option UserInputs :=
  match v with
  | JUndefined | JNull => None
  | _ =>
      Some {| productName := stringField v "productName";
              productManagerName := stringField v "productManagerName";
              productManagerEmail := stringField v "productManagerEmail";
              aiModel := stringField v "aiModel";
              useCase := stringField v "useCase";
              dataSensitivity := stringField v "dataSensitivity";
              industry := stringField v "industry";
              accuracyReq := stringField v "accuracyReq" |}
  end.

(** What the route answers: the body of a gap-analysis assessment, the body
    of a standard assessment (both with status 200), or an error body
    [{ error }] with its status. *)
Inductive RouteResult : Type :=
  | GapAnalysisOk (body : ChecklistResponseBody)
  | StandardOk (body : JSObject JSValue)
  | RouteError (status : Z) (error : string).

Definition assessmentFailed : RouteResult :=
  RouteError 500 "Failed to perform assessment".

Section Route.

(** What the route takes from its surroundings: the parser, the files under
    data/, the imported catalog and scorer, and the unchecked cast
    [checklistData as ChecklistData]. *)
Variable JSON_parse : string -> option JSValue.
Variable readFramework : string -> option Framework.
Variable checklistQuestions : list ChecklistQuestion.
Variable calculateRiskScoresWithGaps :
  JSObject Z -> ChecklistData -> JSObject Z * GapAnalysisResult.
Variable asChecklistData : JSValue -> ChecklistData.

(** [apiKey] is [process.env.OPENAI_API_KEY]; [requestBody] is what
    [request.json()] resolves to, [None] when it rejects; [completion] and
    [call] are the outcomes of the text-generation requests of the two
    paths. Whatever throws inside the [try] block ends in the [catch]; the
    imported scorer is a function here, so a scorer that throws is outside
    the model. *)
Definition POST (apiKey : option string) (requestBody : option JSValue)
    (completion : option Completion) (call : AnalysisCall) : RouteResult :=
  match requestBody with
  | None => assessmentFailed
  | Some body =>
      match get_prop body "userInputs",
            get_prop body "hasRiskAssessment",
            get_prop body "checklistData" with
      | Some userInputs, Some hasRiskAssessment, Some checklistData =>
          if String.eqb (or_else apiKey "") "" then
            RouteError 500 "OpenAI API key not configured"
          else
            match userInputsOf userInputs with
            | None => assessmentFailed
            | Some u =>
                let applicableRisks := determineApplicableRisks u in
                match loadRelevantFrameworkData readFramework applicableRisks with
                | None => assessmentFailed
                | Some frameworks =>
                    if truthy hasRiskAssessment && truthy checklistData then
                      GapAnalysisOk
                        (handleChecklistAssessment checklistQuestions
                           calculateRiskScoresWithGaps u applicableRisks
                           frameworks (asChecklistData checklistData) call)
                    else
                      match handleStandardAssessment JSON_parse u applicableRisks
                              frameworks completion with
                      | Responded standardBody => StandardOk standardBody
                      | Threw => assessmentFailed
                      end
                end
            end
      | _, _, _ => assessmentFailed
      end
  end.

End Route.

(** ** The questionnaire form: isFormValid and submitAssessment *)

(** The form's state: nine strings, empty at the start. *)
Record FormData : Type := {
  formProductName : string;            (* productName *)
  formProductManagerName : string;     (* productManagerName *)
  formProductManagerEmail : string;    (* productManagerEmail *)
  formAiModel : string;                (* aiModel *)
  formUseCase : string;                (* useCase *)
  formDataSensitivity : string;        (* dataSensitivity *)
  formIndustry : string;               (* industry *)
  formAccuracyReq : string;            (* accuracyReq *)
  formHasRiskAssessment : string       (* hasRiskAssessment *)
}.

Definition nonEmpty (s : string) : bool := negb (String.eqb s "").

(** The conjunction names eight of the nine fields: the industry is not
    among them. *)
Definition isFormValid (f : FormData) : bool :=
  nonEmpty (formProductName f) && nonEmpty (formProductManagerName f) &&
  nonEmpty (formProductManagerEmail f) &&
  nonEmpty (formAiModel f) && nonEmpty (formUseCase f) &&
  nonEmpty (formDataSensitivity f) && nonEmpty (formAccuracyReq f) &&
  nonEmpty (formHasRiskAssessment f).

Definition formDataToJSON (f : FormData) : JSValue :=
  JObj [ ("productName", JStr (formProductName f));
         ("productManagerName", JStr (formProductManagerName f));
         ("productManagerEmail", JStr (formProductManagerEmail f));
         ("aiModel", JStr (formAiModel f));
         ("useCase", JStr (formUseCase f));
         ("dataSensitivity", JStr (formDataSensitivity f));
         ("industry", JStr (formIndustry f));
         ("accuracyReq", JStr (formAccuracyReq f));
         ("hasRiskAssessment", JStr (formHasRiskAssessment f)) ].

(** What [submitAssessment] does, in order; [PostJSON] carries the value
    given to [JSON.stringify]. *)
Inductive FormEffect : Type :=
  | FormAlert (message : string)
  | FormAlertFailed (error : JSValue) (* alert('Assessment failed: ' + result.error) *)
  | FormSetIsLoading (loading : bool)
  | PostJSON (url : string) (body : JSValue)
  | FormOnComplete (result : JSValue)
  | FormConsoleError.

Definition afterFormFetch (outcome : FetchOutcome) : list FormEffect :=
  match outcome with
  | FetchResolved result =>
      match get_prop result "success" with
      | Some ok =>
          if truthy ok
          then [FormOnComplete (default JUndefined (get_prop result "assessment"))]
          else [FormAlertFailed (default JUndefined (get_prop result "error"))]
      | None => [FormAlert "Error performing assessment"; FormConsoleError]
      end
  | FetchRejected => [FormAlert "Error performing assessment"; FormConsoleError]
  end.

Definition submitAssessment (f : FormData) (outcome : FetchOutcome)
  : list FormEffect :=
  if negb (isFormValid f) then
    [FormAlert "Please fill in all fields before submitting"]
  else if String.eqb (formHasRiskAssessment f) "no" then
    [FormSetIsLoading true;
     PostJSON "/api/assess"
       (JObj [ ("userInputs", formDataToJSON f);
               ("hasRiskAssessment", JBool false) ])]
    ++ afterFormFetch outcome
    ++ [FormSetIsLoading false]
  else if String.eqb (formHasRiskAssessment f) "yes" then
    [FormOnComplete (JObj [ ("showChecklist", JBool true);
                            ("formData", formDataToJSON f) ])]
  else
    [FormAlert "Please select whether you have conducted AI Risk Assessment"].

(** ** The page: the three steps *)

Inductive Step : Type :=
  | StepForm        (* 'form' *)
  | StepChecklist   (* 'checklist' *)
  | StepResults.    (* 'results' *)

Record HomeState : Type := {
  currentStep : Step;
  homeFormData : JSValue;          (* formData *)
  assessmentResult : JSValue
}.

Definition initialHome : HomeState :=
  {| currentStep := StepForm; homeFormData := JNull; assessmentResult := JNull |}.

(** [None] when reading [result.showChecklist] throws. *)
Definition handleFormComplete (st : HomeState) (result : JSValue)
  : option HomeState :=
  showChecklist ← get_prop result "showChecklist";
  if truthy showChecklist then
    Some {| currentStep := StepChecklist;
            homeFormData := default JUndefined (get_prop result "formData");
            assessmentResult := assessmentResult st |}
  else
    Some {| currentStep := StepResults;
            homeFormData := homeFormData st;
            assessmentResult := result |}.

Definition handleChecklistComplete (st : HomeState) (result : JSValue) : HomeState :=
  {| currentStep := StepResults;
     homeFormData := homeFormData st;
     assessmentResult := result |}.

Definition handleBackToForm (st : HomeState) : HomeState :=
  {| currentStep := StepForm;
     homeFormData := homeFormData st;
     assessmentResult := assessmentResult st |}.

Definition handleReset (st : HomeState) : HomeState := initialHome.

(** ** The checklist form: answering and counting *)

(** [setResponses(prev => ({ ...prev, [questionId]: answer }))] *)
Definition handleResponseChange (responses : gmap Z ChecklistAnswer)
    (questionId : Z) (answer : ChecklistAnswer) : gmap Z ChecklistAnswer :=
  <[questionId := answer]> responses.

(** The two counts of [getCompletionStats]; the percentage it derives from
    them is floating-point arithmetic and is left out. *)
Definition totalQuestions (checklistQuestions : list ChecklistQuestion) : nat :=
  length checklistQuestions.

Definition answeredQuestions (responses : gmap Z ChecklistAnswer) : nat :=
  size responses.

(** The states of [responses] the form can reach: empty at the start, then
    one radio button of a catalog question at a time. *)
Inductive reachableResponses (checklistQuestions : list ChecklistQuestion)
  : gmap Z ChecklistAnswer -> Prop :=
  | reachable_start : reachableResponses checklistQuestions ∅
  | reachable_answer responses q answer :
      reachableResponses checklistQuestions responses ->
      q ∈ checklistQuestions ->
      reachableResponses checklistQuestions
        (handleResponseChange responses (id q) answer).

(** ** The results view: labels, colours and the e-mail report *)

(** The scores the view is given are JSON numbers. *)
Definition atLeast (score threshold : Q) : bool := Qle_bool threshold score.

(** [Math.max(...values)]; [None] is the -Infinity of an empty list. *)
Definition Math_max (values : list Q) : option Q :=
  foldr (fun v acc => match acc with
                      | Some m => Some (Qmax v m)
                      | None => Some v
                      end) None values.

(** [maxRiskScore >= threshold] *)
Definition maxAtLeast (maxRiskScore : option Q) (threshold : Q) : bool :=
  match maxRiskScore with
  | Some m => atLeast m threshold
  | None => false
  end.

Record RiskLevel : Type := {
  level : string;
  color : string
}.

Definition redPink : string :=
  "text-white bg-gradient-to-r from-red-500/80 to-pink-500/80".
Definition yellowOrange : string :=
  "text-white bg-gradient-to-r from-yellow-500/80 to-orange-500/80".
Definition greenEmerald : string :=
  "text-white bg-gradient-to-r from-green-500/80 to-emerald-500/80".
Definition orangeRed : string :=
  "text-white bg-gradient-to-r from-orange-500/80 to-red-500/80".

Definition getRiskLevel (score : Q) : RiskLevel :=
  if atLeast score 70 then {| level := "High Risk"; color := redPink |}
  else if atLeast score 40 then {| level := "Medium Risk"; color := yellowOrange |}
  else {| level := "Low Risk"; color := greenEmerald |}.

Definition getScoreColor (riskScores : JSObject Q) (score : Q) : string :=
  let maxRiskScore := Math_max (Object_values riskScores) in
  let overallRiskLevel := maxRiskScore in
  if maxAtLeast overallRiskLevel 70 then redPink
  else if atLeast score 80 then greenEmerald
  else if atLeast score 60 then yellowOrange
  else if atLeast score 40 then orangeRed
  else redPink.

Definition getScoreLabel (riskScores : JSObject Q) (score : Q) : string :=
  let maxRiskScore := Math_max (Object_values riskScores) in
  if maxAtLeast maxRiskScore 70 then "Needs Attention"
  else if maxAtLeast maxRiskScore 40 then "Moderate Compliance"
  else if atLeast score 80 then "Excellent"
  else if atLeast score 60 then "Good"
  else if atLeast score 40 then "Moderate"
  else "Needs Improvement".

(** The numbers of a JSON object, as the view's [Record<string, number>]. *)
Definition numbersOf (v : JSValue) : JSObject Q :=
  match v with
  | JObj fields =>
      omap (fun e : string * JSValue =>
              match snd e with
              | JNum q => Some (fst e, q)
              | _ => None
              end) fields
  | _ => []
  end.

(** The parts of [result] that [emailReport] reads. *)
Record ProductInfoView : Type := {
  shownProductName : option string;           (* productName *)
  shownProductManagerName : option string;    (* productManagerName *)
  shownProductManagerEmail : option string    (* productManagerEmail *)
}.

Record DisplayResult : Type := {
  shownOverallScore : Q;                       (* overallScore *)
  shownRiskScores : JSObject Q;                (* riskScores *)
  shownAssessedRisks : option (list string);   (* assessedRisks *)
  shownProductInfo : option ProductInfoView    (* productInfo *)
}.

(** [result.productInfo?.field] *)
Definition productField (r : DisplayResult)
    (field : ProductInfoView -> option string) : option string :=
  shownProductInfo r ≫= field.

Definition emailData (r : DisplayResult) : JSValue :=
  JObj [ ("pdfData", JStr "data:application/pdf;base64,test");
         ("productInfo",
           JObj [ ("productName", JStr (or_else (productField r shownProductName) ""));
                  ("productManagerName",
                    JStr (or_else (productField r shownProductManagerName) ""));
                  ("productManagerEmail",
                    JStr (or_else (productField r shownProductManagerEmail) "")) ]);
         ("assessmentSummary",
           JObj [ ("overallScore", JNum (shownOverallScore r));
                  ("riskScores",
                    JObj (map (fun e : string * Q => (fst e, JNum (snd e)))
                              (shownRiskScores r)));
                  ("assessedRisks",
                    JStrings (default [] (shownAssessedRisks r))) ]) ].

(** The status line: the server's message after a check mark, the server's
    error after a cross, or the fixed failure text. *)
Inductive EmailStatus : Type :=
  | StatusSent (message : JSValue)
  | StatusRefused (error : JSValue)
  | StatusFailed.

(** What [emailReport] does, in order: alerts, state setters, the request
    and the timer that clears the status; its console output is not
    modelled. *)
Inductive EmailEffect : Type :=
  | EmailAlert (message : string)
  | SetIsEmailSending (sending : bool)
  | SetEmailStatus (status : option EmailStatus)
  | PostEmail (url : string) (body : JSValue)
  | ClearStatusAfter (milliseconds : Z).

Definition afterEmailFetch (outcome : FetchOutcome) : list EmailEffect :=
  match outcome with
  | FetchResolved responseData =>
      match get_prop responseData "success" with
      | Some ok =>
          if truthy ok
          then [SetEmailStatus
                  (Some (StatusSent (default JUndefined (get_prop responseData "message"))));
                ClearStatusAfter 5000]
          else [SetEmailStatus
                  (Some (StatusRefused (default JUndefined (get_prop responseData "error"))));
                ClearStatusAfter 8000]
      | None => [SetEmailStatus (Some StatusFailed); ClearStatusAfter 8000]
      end
  | FetchRejected => [SetEmailStatus (Some StatusFailed); ClearStatusAfter 8000]
  end.

Definition emailReport (r : DisplayResult) (outcome : FetchOutcome)
  : list EmailEffect :=
  if String.eqb (or_else (productField r shownProductManagerEmail) "") "" then
    [EmailAlert "Product manager email not available. Cannot send email."]
  else
    [SetIsEmailSending true; SetEmailStatus None;
     PostEmail "/api/send-email" (emailData r)]
    ++ afterEmailFetch outcome
    ++ [SetIsEmailSending false].

(** ** Reading one component's output in the next *)

(** The inputs the route reads from a posted form. *)
Definition inputsOfForm (f : FormData) : UserInputs :=
  {| productName := Some (formProductName f);
     productManagerName := Some (formProductManagerName f);
     productManagerEmail := Some (formProductManagerEmail f);
     aiModel := Some (formAiModel f);
     useCase := Some (formUseCase f);
     dataSensitivity := Some (formDataSensitivity f);
     industry := Some (formIndustry f);
     accuracyReq := Some (formAccuracyReq f) |}.

(** No effect of the list switches the loading flag. *)
Definition isLoadingSetter (e : Effect) : bool :=
  match e with SetIsLoading _ => true | _ => false end.

Definition isFormLoadingSetter (e : FormEffect) : bool :=
  match e with FormSetIsLoading _ => true | _ => false end.

Definition isRequest (e : EmailEffect) : bool :=
  match e with PostEmail _ _ => true | _ => false end.

Definition isSendingSetter (e : EmailEffect) : bool :=
  match e with SetIsEmailSending _ => true | _ => false end.

(** ** Sample data *)

Definition noInputs : UserInputs :=
  {| productName := None; productManagerName := None; productManagerEmail := None;
     aiModel := None; useCase := None; dataSensitivity := None;
     industry := None; accuracyReq := None |}.

(** A bank's customer-service assistant on a hosted model. *)
Definition bankAssistant : UserInputs :=
  {| productName := Some "Teller";
     productManagerName := Some "Ada";
     productManagerEmail := Some "ada@example.org";
     aiModel := Some "thirdParty";
     useCase := Some "customerService";
     dataSensitivity := Some "confidential";
     industry := Some "financial";
     accuracyReq := Some "critical" |}.

(** A parser that accepts the empty object and nothing else. *)
Definition parseEmptyObjectOnly (text : string) : option JSValue :=
  if String.eqb text "{}" then Some (JObj []) else None.

Definition proseCompletion : Completion :=
  {| content := Some "I am sorry, I cannot produce the assessment.";
     total_tokens := Some 321 |}.

Definition sampleCatalog : list ChecklistQuestion :=
  [ {| id := 1; category := Hallucination;
       question := "Are model outputs validated before use?";
       purpose := "Output validation"; weight := 20 |};
    {| id := 2; category := Hallucination;
       question := "Is there a human review step?";
       purpose := "Human oversight"; weight := 15 |};
    {| id := 7; category := DataLeakage;
       question := "Is data masked before it leaves the tenant?";
       purpose := "Data masking"; weight := 30 |};
    {| id := 3; category := PromptInjection;
       question := "Are prompts filtered?";
       purpose := "Input filtering"; weight := 30 |} ].

(** Both hallucination controls are in place; the other two are not. *)
Definition sampleResponses : gmap Z ChecklistAnswer :=
  <[1 := Yes]> (<[2 := Yes]> (<[3 := No]> (<[7 := NA]> ∅))).

(** The form with question 3 still unanswered. *)
Definition partialResponses : gmap Z ChecklistAnswer :=
  <[1 := Yes]> (<[2 := Yes]> (<[7 := NA]> ∅)).

(** A scorer for the route, obtained from the modelled one with floor 10
    over [sampleCatalog]. *)
Definition sampleScorer (baseRiskScores : JSObject Z) (d : ChecklistData)
  : JSObject Z * GapAnalysisResult :=
  let answers : gmap Z ChecklistAnswer :=
    list_to_map (omap (fun r => (fun a => (questionId r, a)) <$> answer r)
                      (allResponses d)) in
  let baseScores : gmap RiskCategory Z :=
    list_to_map (omap (fun c => (fun b => (c, b)) <$>
                                obj_get baseRiskScores (categoryKey c))
                      allCategories) in
  let '(adjusted, gap) :=
    GapAnalysis.calculateRiskScoresWithGaps 10 sampleCatalog baseScores answers in
  (omap (fun c => (fun a => (categoryKey c, a)) <$> adjusted !! c) allCategories,
   gap).

Definition sampleChecklist : ChecklistData :=
  organizeResponses sampleCatalog sampleResponses.

Definition sampleFrameworks : JSObject Framework :=
  [ ("hallucination",
      {| frameworkId := "AIR-OP-004";
         frameworkTitle := "Hallucination and Inaccurate Outputs";
         key_mitigations :=
           Some [ {| mitigationRefId := "AIR-PREV-005";
                     mitigationRefName := "System Acceptance Testing";
                     mitigationDescription := "Test the system before release." |} ];
         contributing_factors :=
           Some [ {| factorName := "Lack of grounding";
                     factorDescription := "Answers are not tied to sources." |} ];
         examples :=
           Some [ {| exampleRefTitle := "Invented policy";
                     exampleDescription := "The assistant cites a policy that does not exist." |} ] |});
    ("dataLeakage",
      {| frameworkId := "AIR-RC-001";
         frameworkTitle := "Information Leaked to Hosted Model";
         key_mitigations :=
           Some [ {| mitigationRefId := "AIR-PREV-002";
                     mitigationRefName := "Data Filtering";
                     mitigationDescription := "Filter data sent to the hosted model." |} ];
         contributing_factors := None;
         examples := None |}) ].

Definition sampleResponse : ChecklistResponseBody :=
  handleChecklistAssessment sampleCatalog sampleScorer bankAssistant
    (determineApplicableRisks bankAssistant) sampleFrameworks sampleChecklist
    AnalysisFailed.

Definition sampleRequest : AssessRequest :=
  {| reqUserInputs := JNull;
     hasRiskAssessment := true;
     reqChecklistData := sampleChecklist |}.

(** The scenarios of the specification's testable properties: one
    hallucination base score of 85, floor 10. *)
Definition scenarioBase : gmap RiskCategory Z := {[ Hallucination := 85 ]}.

Definition scenarioCatalog (w1 w2 : Z) : list ChecklistQuestion :=
  [ {| id := 1; category := Hallucination; question := "q1";
       purpose := "first control"; weight := w1 |};
    {| id := 2; category := Hallucination; question := "q2";
       purpose := "second control"; weight := w2 |} ].

(** A base score below the floor. *)
Definition lowBase : gmap RiskCategory Z := {[ Hallucination := 5 ]}.

(** Framework files: every file readable, and no file readable. *)
Definition blankFramework : Framework :=
  {| frameworkId := "AIR-X"; frameworkTitle := "Untitled";
     key_mitigations := None; contributing_factors := None; examples := None |}.

Definition readBlank (fileName : string) : option Framework := Some blankFramework.

Definition readNothing (fileName : string) : option Framework := None.

(** A posted body of the standard path. *)
Definition bankRequestBody : JSValue :=
  JObj [ ("userInputs",
           JObj [ ("productName", JStr "Teller");
                  ("aiModel", JStr "thirdParty");
                  ("useCase", JStr "customerService");
                  ("dataSensitivity", JStr "confidential");
                  ("industry", JStr "financial");
                  ("accuracyReq", JStr "critical") ]);
         ("hasRiskAssessment", JBool false) ].

Definition samplePOST (apiKey : option string) (requestBody : option JSValue)
    (completion : option Completion) : RouteResult :=
  POST parseEmptyObjectOnly readBlank sampleCatalog sampleScorer
    (fun _ => sampleChecklist) apiKey requestBody completion AnalysisFailed.

(** A posted body whose flag is the string no. *)
Definition stringFlagBody : JSValue :=
  JObj [ ("userInputs", JObj []);
         ("hasRiskAssessment", JStr "no");
         ("checklistData", JObj []) ].

(** The questionnaire of the bank assistant, industry left empty, without
    and with a prior risk assessment. *)
Definition bankForm : FormData :=
  {| formProductName := "Teller";
     formProductManagerName := "Ada";
     formProductManagerEmail := "ada@example.org";
     formAiModel := "thirdParty";
     formUseCase := "customerService";
     formDataSensitivity := "confidential";
     formIndustry := "";
     formAccuracyReq := "critical";
     formHasRiskAssessment := "no" |}.

Definition bankFormAssessed : FormData :=
  {| formProductName := "Teller";
     formProductManagerName := "Ada";
     formProductManagerEmail := "ada@example.org";
     formAiModel := "thirdParty";
     formUseCase := "customerService";
     formDataSensitivity := "confidential";
     formIndustry := "";
     formAccuracyReq := "critical";
     formHasRiskAssessment := "yes" |}.

(** A result as the view receives it. *)
Definition shownResult : DisplayResult :=
  {| shownOverallScore := 85;
     shownRiskScores := [("hallucination", 30%Q); ("dataLeakage", 72%Q)];
     shownAssessedRisks := Some ["hallucination"; "dataLeakage"];
     shownProductInfo :=
       Some {| shownProductName := Some "Teller";
               shownProductManagerName := Some "Ada";
               shownProductManagerEmail := Some "ada@example.org" |} |}.

Definition anonymousResult : DisplayResult :=
  {| shownOverallScore := 85;
     shownRiskScores := [];
     shownAssessedRisks := None;
     shownProductInfo := None |}.

(** * Properties *)

(** ** JavaScript objects and sets *)

Lemma is_spec (field : option string) (lit : string) :
  is_ field lit = true <-> field = Some lit.
Proof.
  destruct field as [s|]; simpl.
  - rewrite String.eqb_eq. split; congruence.
  - split; discriminate.
Qed.

Lemma obj_get_obj_set {V} (o : JSObject V) (k k' : string) (v : V) :
  obj_get (obj_set o k v) k' = if String.eqb k k' then Some v else obj_get o k'.
Proof.
  induction o as [|[k0 v0] rest IH]; simpl.
  - reflexivity.
  - destruct (String.eqb_spec k0 k) as [->|Hne]; simpl.
    + destruct (String.eqb_spec k k'); reflexivity.
    + rewrite IH. destruct (String.eqb_spec k0 k') as [->|]; [|reflexivity].
      destruct (String.eqb_spec k k'); congruence.
Qed.

Lemma obj_set_keys {V} (o : JSObject V) (k k' : string) (v : V) :
  k' ∈ Object_keys (obj_set o k v) -> k' = k \/ k' ∈ Object_keys o.
Proof.
  unfold Object_keys. induction o as [|[k0 v0] rest IH]; simpl.
  - rewrite list_elem_of_singleton. auto.
  - destruct (String.eqb_spec k0 k) as [->|Hne]; simpl; rewrite !elem_of_cons.
    + tauto.
    + intros [->|Hin]; [tauto|]. destruct (IH Hin); tauto.
Qed.

Lemma existsb_eqb_elem_of (x : string) (s : list string) :
  existsb (String.eqb x) s = true <-> x ∈ s.
Proof.
  rewrite existsb_exists. split.
  - intros (y & Hy & Heq). apply String.eqb_eq in Heq. subst.
    by apply list_elem_of_In.
  - intros Hx. exists x. split; [by apply list_elem_of_In | apply String.eqb_refl].
Qed.

Lemma Set_add_NoDup (s : list string) (x : string) :
  NoDup s -> NoDup (Set_add s x).
Proof.
  intros Hs. unfold Set_add, push.
  destruct (existsb (String.eqb x) s) eqn:Hx; [exact Hs|].
  apply NoDup_app. split_and!; [exact Hs | | apply NoDup_singleton].
  intros y Hy Hy'. apply list_elem_of_singleton in Hy'. subst y.
  apply existsb_eqb_elem_of in Hy. congruence.
Qed.

Lemma Set_add_elem_of (s : list string) (x y : string) :
  y ∈ Set_add s x <-> y ∈ s \/ y = x.
Proof.
  unfold Set_add, push.
  destruct (existsb (String.eqb x) s) eqn:Hx.
  - apply existsb_eqb_elem_of in Hx. split; [tauto|]. intros [?| ->]; done.
  - rewrite elem_of_app, list_elem_of_singleton. tauto.
Qed.

Lemma fold_Set_add_NoDup (l acc : list string) :
  NoDup acc -> NoDup (fold_left Set_add l acc).
Proof.
  revert acc. induction l as [|x l IH]; intros acc Hacc; simpl; [exact Hacc|].
  apply IH, Set_add_NoDup, Hacc.
Qed.

Lemma fold_Set_add_elem_of (l acc : list string) (y : string) :
  y ∈ fold_left Set_add l acc <-> y ∈ acc \/ y ∈ l.
Proof.
  revert acc. induction l as [|x l IH]; intros acc; simpl.
  - rewrite elem_of_nil. tauto.
  - rewrite IH, Set_add_elem_of, elem_of_cons. tauto.
Qed.

(** Spreading a [Set] built from an array keeps exactly the array's
    elements, each once. *)
Lemma Set_from_NoDup (l : list string) : NoDup (Set_from l).
Proof. apply fold_Set_add_NoDup, NoDup_nil_2. Qed.

Lemma Set_from_elem_of (l : list string) (y : string) :
  y ∈ Set_from l <-> y ∈ l.
Proof.
  unfold Set_from. rewrite fold_Set_add_elem_of, elem_of_nil. tauto.
Qed.

(** ** determineApplicableRisks *)

(** The array the rules have pushed into, before duplicates are removed. *)
Lemma determineApplicableRisks_pushed (u : UserInputs) :
  exists pushed,
    determineApplicableRisks u = Set_from pushed /\
    pushed <> [] /\
    (forall r, r ∈ pushed ->
       r ∈ ["hallucination"; "promptInjection"; "dataLeakage"]) /\
    (hallucinationRule u = false -> promptInjectionRule u = false ->
     dataLeakageRule u = false -> pushed = ["promptInjection"]).
Proof.
  unfold determineApplicableRisks, push.
  destruct (hallucinationRule u), (promptInjectionRule u), (dataLeakageRule u);
    simpl; eexists; (split; [reflexivity|]);
    (split; [discriminate|]);
    (split; [intros r; rewrite !elem_of_cons, !elem_of_nil; tauto|]); done.
Qed.

(** C8. For every userInputs object, with its fields present, missing or
    unrecognised, determineApplicableRisks returns a list that is non-empty
    and free of duplicates, whose elements are among hallucination,
    promptInjection and dataLeakage; when none of the three rules matches,
    the list is exactly [promptInjection]. *)
Theorem determineApplicableRisks_sound (u : UserInputs) :
  determineApplicableRisks u <> [] /\
  NoDup (determineApplicableRisks u) /\
  (forall r, r ∈ determineApplicableRisks u ->
     r ∈ ["hallucination"; "promptInjection"; "dataLeakage"]) /\
  (hallucinationRule u = false -> promptInjectionRule u = false ->
   dataLeakageRule u = false ->
   determineApplicableRisks u = ["promptInjection"]).
Proof.
  destruct (determineApplicableRisks_pushed u) as (pushed & -> & Hne & Hin & Hnone).
  split_and!.
  - destruct pushed as [|x rest]; [done|].
    intros Hnil.
    assert (Hx : x ∈ Set_from (x :: rest)) by (apply Set_from_elem_of; left).
    rewrite Hnil in Hx. by apply elem_of_nil in Hx.
  - apply Set_from_NoDup.
  - intros r Hr. apply Hin. by apply Set_from_elem_of.
  - intros H1 H2 H3. rewrite (Hnone H1 H2 H3). reflexivity.
Qed.

Lemma determineApplicableRisks_sound_witness :
  determineApplicableRisks noInputs = ["promptInjection"].
Proof.
  apply (proj2 (proj2 (proj2 (determineApplicableRisks_sound noInputs))));
    reflexivity.
Defined.

(** ** Base risk scores *)

Lemma thirdPartyOrApi_spec (u : UserInputs) :
  thirdPartyOrApi u = true <->
  aiModel u = Some "thirdParty" \/ aiModel u = Some "apiBased".
Proof.
  unfold thirdPartyOrApi. rewrite orb_true_iff, !is_spec. reflexivity.
Qed.

Lemma baseScoreOf_range (u : UserInputs) (risk : string) :
  0 <= baseScoreOf u risk <= 100.
Proof.
  unfold baseScoreOf.
  repeat match goal with |- context [if ?b then _ else _] => destruct b end; lia.
Qed.

(** Every key the loop has seen, or found already present, holds the score
    of that key. *)
Lemma baseRiskScores_fold (u : UserInputs) (risks : list string)
    (acc : JSObject Z) (risk : string) :
  (forall k v, obj_get acc k = Some v -> v = baseScoreOf u k) ->
  risk ∈ risks \/ is_Some (obj_get acc risk) ->
  obj_get (fold_left (fun o r => obj_set o r (baseScoreOf u r)) risks acc) risk
  = Some (baseScoreOf u risk).
Proof.
  revert acc. induction risks as [|r risks IH]; intros acc Hacc Hin; simpl.
  - destruct Hin as [Hin|[v Hv]]; [by apply elem_of_nil in Hin|].
    rewrite Hv. f_equal. by apply Hacc.
  - apply IH.
    + intros k v. rewrite obj_get_obj_set.
      destruct (String.eqb_spec r k) as [->|]; [congruence | apply Hacc].
    + rewrite obj_get_obj_set.
      destruct (String.eqb_spec r risk) as [->|Hne]; [right; eauto|].
      destruct Hin as [Hin|Hin]; [|by right].
      apply elem_of_cons in Hin as [->|Hin]; [done | by left].
Qed.

Lemma baseRiskScores_keys_fold (u : UserInputs) (risks : list string)
    (acc : JSObject Z) (k : string) :
  k ∈ Object_keys (fold_left (fun o r => obj_set o r (baseScoreOf u r)) risks acc) ->
  k ∈ risks \/ k ∈ Object_keys acc.
Proof.
  revert acc. induction risks as [|r risks IH]; intros acc; simpl; [tauto|].
  intros Hk. rewrite elem_of_cons.
  destruct (IH _ Hk) as [?|Hk']; [tauto|].
  destruct (obj_set_keys _ _ _ _ Hk'); tauto.
Qed.

(** C4. In the checklist path the base-score mapping has an entry for every
    category under assessment and for no other key; the entry is an integer
    between 0 and 100: 80 for dataLeakage on a third-party or API-based
    model, 85 for hallucination with critical accuracy requirements, 75 for
    promptInjection with the customer-service use case, and 70 in every
    other case. *)
Theorem baseRiskScores_entries (u : UserInputs) (applicableRisks : list string)
    (risk : string) :
  (risk ∈ Object_keys (baseRiskScores u applicableRisks) -> risk ∈ applicableRisks) /\
  (risk ∈ applicableRisks ->
   exists score,
     obj_get (baseRiskScores u applicableRisks) risk = Some score /\
     0 <= score <= 100 /\
     let hosted := aiModel u = Some "thirdParty" \/ aiModel u = Some "apiBased" in
     let leak := risk = "dataLeakage" /\ hosted in
     let critical := risk = "hallucination" /\ accuracyReq u = Some "critical" in
     let service := risk = "promptInjection" /\ useCase u = Some "customerService" in
     (leak -> score = 80) /\
     (critical -> score = 85) /\
     (service -> score = 75) /\
     (~ leak -> ~ critical -> ~ service -> score = 70)).
Proof.
  split.
  - intros Hk. destruct (baseRiskScores_keys_fold _ _ _ _ Hk) as [?|Hnil]; [done|].
    by apply elem_of_nil in Hnil.
  - intros Hin. exists (baseScoreOf u risk). cbv zeta.
    refine (conj _ (conj _ (conj _ (conj _ (conj _ _))))).
    + apply baseRiskScores_fold; [discriminate | by left].
    + apply baseScoreOf_range.
    + unfold baseScoreOf. intros [-> Hm]. apply thirdPartyOrApi_spec in Hm.
      rewrite Hm. reflexivity.
    + unfold baseScoreOf. intros [-> Hc]. apply is_spec in Hc.
      rewrite Hc. reflexivity.
    + unfold baseScoreOf. intros [-> Hs]. apply is_spec in Hs.
      rewrite Hs. reflexivity.
    + unfold baseScoreOf. intros Hl Hc Hs.
      destruct (String.eqb_spec risk "dataLeakage") as [->|]; simpl.
      * destruct (thirdPartyOrApi u) eqn:Hm; [|reflexivity].
        apply thirdPartyOrApi_spec in Hm. tauto.
      * destruct (String.eqb_spec risk "hallucination") as [->|]; simpl.
        -- destruct (is_ (accuracyReq u) "critical") eqn:Hq; [|reflexivity].
           apply is_spec in Hq. tauto.
        -- destruct (String.eqb_spec risk "promptInjection") as [->|]; simpl;
             [|reflexivity].
           destruct (is_ (useCase u) "customerService") eqn:Hq; [|reflexivity].
           apply is_spec in Hq. tauto.
Qed.

Lemma baseRiskScores_entries_witness :
  exists score,
    obj_get (baseRiskScores bankAssistant
               ["hallucination"; "promptInjection"; "dataLeakage"])
            "dataLeakage" = Some score /\ score = 80.
Proof.
  destruct (proj2 (baseRiskScores_entries bankAssistant
                     ["hallucination"; "promptInjection"; "dataLeakage"]
                     "dataLeakage"))
    as (score & Hget & _ & Hleak & _).
  - rewrite !elem_of_cons. tauto.
  - exists score. split; [exact Hget|]. apply Hleak. split; [reflexivity|].
    left. reflexivity.
Defined.

(** ** The standard assessment falls back on a canned result *)

Lemma parseAssessment_unusable (JSON_parse : string -> option JSValue)
    (responseText : option string) :
  unusableResponse JSON_parse responseText ->
  parseAssessment JSON_parse responseText = None.
Proof.
  unfold unusableResponse, parseAssessment.
  intros [Hfail|(r & k & Hparse & Hk & Hlack)].
  - rewrite Hfail. reflexivity.
  - rewrite Hparse. simpl.
    destruct r; simpl in *; try reflexivity.
    destruct Hk as [->| ->], Hlack as [Hlack|Hlack]; try discriminate;
      injection Hlack as Hlack; rewrite Hlack; simpl;
      [reflexivity | by rewrite orb_true_r].
Qed.

Lemma fallbackComplianceScore_table (u : UserInputs) :
  let restricted := dataSensitivity u = Some "restricted" in
  let confidential := dataSensitivity u = Some "confidential" in
  let hosted := aiModel u = Some "thirdParty" \/ aiModel u = Some "apiBased" in
  (restricted -> fallbackComplianceScore u = 45) /\
  (confidential -> fallbackComplianceScore u = 55) /\
  (~ restricted -> ~ confidential -> hosted -> fallbackComplianceScore u = 60) /\
  (~ restricted -> ~ confidential -> ~ hosted -> fallbackComplianceScore u = 70).
Proof.
  cbv zeta. unfold fallbackComplianceScore.
  pose proof (is_spec (dataSensitivity u) "restricted") as Sr.
  pose proof (is_spec (dataSensitivity u) "confidential") as Sc.
  pose proof (thirdPartyOrApi_spec u) as Sm.
  destruct (is_ (dataSensitivity u) "restricted"),
           (is_ (dataSensitivity u) "confidential"),
           (thirdPartyOrApi u);
    repeat split; intros; try reflexivity; exfalso; intuition congruence.
Qed.

(** C5. When the text-generation response of the standard path fails to
    parse or lacks the required fields, the handler still answers, with
    success set and no error: the assessment is the hardcoded fallback,
    whose compliance score is 45 for restricted data sensitivity, 55 for
    confidential, otherwise 60 for a third-party or API-based model and 70
    for the rest, and whose analysis is the canned text. *)
Theorem handleStandardAssessment_fallback
    (JSON_parse : string -> option JSValue) (u : UserInputs)
    (applicableRisks : list string) (frameworks : JSObject Framework)
    (c : Completion) :
  unusableResponse JSON_parse (content c) ->
  exists body result score,
    handleStandardAssessment JSON_parse u applicableRisks frameworks (Some c)
    = Responded body /\
    obj_get body "success" = Some (JBool true) /\
    obj_get body "error" = None /\
    obj_get body "assessment" = Some (JObj result) /\
    obj_get result "overallScore" = Some (JInt score) /\
    (let restricted := dataSensitivity u = Some "restricted" in
     let confidential := dataSensitivity u = Some "confidential" in
     let hosted := aiModel u = Some "thirdParty" \/ aiModel u = Some "apiBased" in
     (restricted -> score = 45) /\
     (confidential -> score = 55) /\
     (~ restricted -> ~ confidential -> hosted -> score = 60) /\
     (~ restricted -> ~ confidential -> ~ hosted -> score = 70)) /\
    obj_get result "analysis" = Some (JStr (fallbackAnalysis u applicableRisks)) /\
    obj_get result "contributingFactors" = Some (JArr []) /\
    obj_get result "relevantExamples" = Some (JArr []) /\
    obj_get result "assessedRisks" = Some (JStrings applicableRisks).
Proof.
  intros Hbad. apply parseAssessment_unusable in Hbad.
  unfold handleStandardAssessment. rewrite Hbad.
  eexists _, _, (fallbackComplianceScore u).
  split; [reflexivity|].
  repeat (split; [reflexivity|]).
  split; [apply fallbackComplianceScore_table|].
  repeat split; reflexivity.
Qed.

Lemma handleStandardAssessment_fallback_witness :
  exists body,
    handleStandardAssessment parseEmptyObjectOnly bankAssistant
      ["hallucination"; "promptInjection"; "dataLeakage"] [] (Some proseCompletion)
    = Responded body /\
    obj_get body "success" = Some (JBool true).
Proof.
  destruct (handleStandardAssessment_fallback parseEmptyObjectOnly bankAssistant
              ["hallucination"; "promptInjection"; "dataLeakage"] []
              proseCompletion)
    as (body & result & score & Hbody & Hok & _).
  - right. exists (JObj []), "overallScore".
    split; [reflexivity|]. split; [left; reflexivity|]. right. reflexivity.
  - exists body. split; [exact Hbody | exact Hok].
Defined.

(** ** The overall compliance score *)

Lemma fold_left_add_foldr (values : list Z) (a : Z) :
  fold_left Z.add values a = a + foldr Z.add 0 values.
Proof.
  revert a. induction values as [|v values IH]; intros a; simpl.
  - lia.
  - rewrite IH. lia.
Qed.

Lemma avgRiskScore_specAverage (adjustedRiskScores : JSObject Z) :
  adjustedRiskScores <> [] ->
  avgRiskScore adjustedRiskScores
  = Some (specAverage (Object_values adjustedRiskScores)).
Proof.
  intros Hne. unfold avgRiskScore, specAverage, sumScores.
  destruct adjustedRiskScores as [|e rest]; [done|].
  simpl length. simpl Nat.eqb. cbv iota.
  rewrite fold_left_add_foldr. reflexivity.
Qed.

Lemma Qmax_Qmin_specClamp (x lo hi : Q) :
  (lo <= hi)%Q -> (Qmax lo (Qmin hi x) == specClamp x lo hi)%Q.
Proof.
  intros Hlohi. unfold specClamp.
  destruct (Qlt_le_dec x lo) as [Hlt|Hge].
  - apply Q.max_l. rewrite Q.min_r; [apply Qlt_le_weak, Hlt|].
    apply Qle_trans with lo; [apply Qlt_le_weak, Hlt | exact Hlohi].
  - destruct (Qlt_le_dec hi x) as [Hgt|Hle].
    + rewrite Q.min_l by (apply Qlt_le_weak, Hgt). apply Q.max_r, Hlohi.
    + rewrite Q.min_r by exact Hle. apply Q.max_r, Hge.
Qed.

Lemma specClamp_range (x lo hi : Q) :
  (lo <= hi)%Q -> (lo <= specClamp x lo hi <= hi)%Q.
Proof.
  intros Hlohi. unfold specClamp.
  destruct (Qlt_le_dec x lo) as [Hlt|Hge].
  - split; [apply Qle_refl | exact Hlohi].
  - destruct (Qlt_le_dec hi x) as [Hgt|Hle].
    + split; [exact Hlohi | apply Qle_refl].
    + split; assumption.
Qed.

(** Rounding keeps a score between two integers between them, and moves it
    by at most one half. *)
Lemma Math_round_range (x : Q) (lo hi : Z) :
  (inject_Z lo <= x <= inject_Z hi)%Q -> lo <= Math_round x <= hi.
Proof.
  intros [Hlo Hhi]. unfold Math_round. split.
  - rewrite <- (Qfloor_Z lo). apply Qfloor_resp_le. lra.
  - pose proof (Qfloor_le (x + (1 # 2))) as Hfl.
    assert (Hlt : (inject_Z (Qfloor (x + (1 # 2))) < inject_Z (hi + 1))%Q)
      by (rewrite inject_Z_plus; change (inject_Z 1) with 1%Q; lra).
    rewrite <- Zlt_Qlt in Hlt. lia.
Qed.

Lemma Math_round_near (x : Q) :
  (inject_Z (Math_round x) - (1 # 2) <= x)%Q /\
  (x < inject_Z (Math_round x) + (1 # 2))%Q.
Proof.
  unfold Math_round.
  pose proof (Qfloor_le (x + (1 # 2))) as Hle.
  pose proof (Qlt_floor (x + (1 # 2))) as Hlt.
  rewrite inject_Z_plus in Hlt. change (inject_Z 1) with 1%Q in Hlt.
  split; lra.
Qed.

(** C1. For every checklist-path assessment with at least one adjusted
    score, the overall compliance score the handler computes equals
    clamp(100 - average(adjustedScores.values()) + totalRiskReduction/2,
    10, 100); the response carries it rounded to the nearest integer, which
    lies between 0 and 100 (indeed at least 10) and within one half of the
    clamped value. *)
Theorem overallScore_is_clamped
    (checklistQuestions : list ChecklistQuestion)
    (calculateRiskScoresWithGaps :
       JSObject Z -> ChecklistData -> JSObject Z * GapAnalysisResult)
    (u : UserInputs) (applicableRisks : list string)
    (frameworks : JSObject Framework) (checklistData : ChecklistData)
    (call : AnalysisCall) :
  let scored :=
    calculateRiskScoresWithGaps (baseRiskScores u applicableRisks) checklistData in
  let response :=
    handleChecklistAssessment checklistQuestions calculateRiskScoresWithGaps
      u applicableRisks frameworks checklistData call in
  fst scored <> [] ->
  exists (raw : Q) (returned : Z),
    rawOverallScore (fst scored) (snd scored) = Some raw /\
    (raw == specOverallCompliance (fst scored) (totalRiskReduction (snd scored)))%Q /\
    overallScore (assessment response) = Some returned /\
    returned = Math_round raw /\
    0 <= returned <= 100 /\
    10 <= returned /\
    (inject_Z returned - (1 # 2) <= raw < inject_Z returned + (1 # 2))%Q.
Proof.
  intros scored response Hne. subst response.
  unfold handleChecklistAssessment. fold scored.
  destruct scored as [adjusted gap] eqn:Hscored. simpl in *.
  unfold rawOverallScore. rewrite (avgRiskScore_specAverage _ Hne). simpl.
  eexists _, _. split; [reflexivity|].
  assert (Hclamp :
    (Qmax 10 (Qmin 100 (100 - specAverage (Object_values adjusted)
                        + inject_Z (totalRiskReduction gap) / 2))
     == specOverallCompliance adjusted (totalRiskReduction gap))%Q).
  { unfold specOverallCompliance. apply Qmax_Qmin_specClamp. discriminate. }
  split; [exact Hclamp|].
  split; [reflexivity|]. split; [reflexivity|].
  assert (Hrange :
    (inject_Z 10 <= Qmax 10 (Qmin 100 (100 - specAverage (Object_values adjusted)
                        + inject_Z (totalRiskReduction gap) / 2))
     <= inject_Z 100)%Q).
  { rewrite Hclamp. unfold specOverallCompliance.
    apply (specClamp_range _ 10 100). discriminate. }
  apply Math_round_range in Hrange.
  split; [lia|]. split; [lia|]. apply Math_round_near.
Qed.

Lemma overallScore_is_clamped_witness :
  exists returned : Z,
    overallScore (assessment sampleResponse) = Some returned /\
    0 <= returned <= 100.
Proof.
  destruct (overallScore_is_clamped sampleCatalog sampleScorer bankAssistant
              (determineApplicableRisks bankAssistant) sampleFrameworks
              sampleChecklist AnalysisFailed)
    as (raw & returned & _ & _ & Hret & _ & Hrange & _).
  - vm_compute. discriminate.
  - exists returned. split; [exact Hret | exact Hrange].
Defined.

(** The sample assessment, evaluated. *)
Example sampleResponse_scores :
  riskScores (assessment sampleResponse)
  = [("hallucination", 50); ("promptInjection", 75); ("dataLeakage", 80)].
Proof. vm_compute. reflexivity. Qed.

Example sampleResponse_overall :
  overallScore (assessment sampleResponse) = Some 49.
Proof. vm_compute. reflexivity. Qed.

(** ** Findings are reported for elevated scores only *)

Lemma priorityOf_rated (score : Z) : rated score (priorityOf score).
Proof.
  unfold rated, priorityOf.
  destruct (Z.leb_spec 70 score); [repeat split; intros; (reflexivity || lia)|].
  destruct (Z.leb_spec 60 score); repeat split; intros; (reflexivity || lia).
Qed.

Lemma frameworkKeyOf_Some (riskKey key : string) :
  frameworkKeyOf riskKey = Some key -> key = riskKey.
Proof.
  unfold frameworkKeyOf.
  destruct (String.eqb_spec riskKey "hallucination"); [congruence|].
  destruct (String.eqb_spec riskKey "promptInjection"); [congruence|].
  destruct (String.eqb_spec riskKey "dataLeakage"); [congruence|discriminate].
Qed.

Lemma elem_of_map {A B} (f : A -> B) (l : list A) (y : B) :
  y ∈ map f l <-> exists x, y = f x /\ x ∈ l.
Proof.
  rewrite list_elem_of_In, in_map_iff.
  split; intros (x & Hx & Hin); exists x; (split; [done|]);
    by apply list_elem_of_In.
Qed.

Lemma elem_of_take_elem_of {A} (n : nat) (l : list A) (x : A) :
  x ∈ take n l -> x ∈ l.
Proof.
  rewrite elem_of_take. intros (i & Hi & _). by eapply list_elem_of_lookup_2.
Qed.

Lemma contributes_cons (frameworks : JSObject Framework) (e : string * Z)
    (entries : list (string * Z)) (riskKey : string) (score : Z) (fw : Framework) :
  contributes frameworks entries riskKey score fw ->
  contributes frameworks (e :: entries) riskKey score fw.
Proof. unfold contributes. rewrite elem_of_cons. tauto. Qed.

(** What one iteration adds comes from its own entry. *)
Lemma collectFindings_step (u : UserInputs) (frameworks : JSObject Framework)
    (acc : Findings) (riskKey : string) (score : Z) :
  collectFindings u frameworks acc (riskKey, score) = acc \/
  exists fw,
    50 <= score /\ obj_get frameworks riskKey = Some fw /\
    collectFindings u frameworks acc (riskKey, score)
    = {| finosRiskMitigations := finosRiskMitigations acc ++ mitigationsOf fw score;
         foundFactors := foundFactors acc ++ factorsOf fw score;
         foundExamples := foundExamples acc ++ examplesOf u fw |}.
Proof.
  unfold collectFindings.
  destruct (Z.leb_spec 50 score) as [Hge|]; [|by left].
  destruct (frameworkKeyOf riskKey) as [key|] eqn:Hkey; simpl; [|by left].
  apply frameworkKeyOf_Some in Hkey. subst key.
  destruct (obj_get frameworks riskKey) as [fw|] eqn:Hfw; [|by left].
  right. exists fw. done.
Qed.

Lemma findings_fold_origin (u : UserInputs) (frameworks : JSObject Framework)
    (entries : list (string * Z)) (acc : Findings) :
  let found := fold_left (collectFindings u frameworks) entries acc in
  (forall m, m ∈ finosRiskMitigations found ->
     m ∈ finosRiskMitigations acc \/
     exists riskKey score fw,
       contributes frameworks entries riskKey score fw /\ m ∈ mitigationsOf fw score) /\
  (forall f, f ∈ foundFactors found ->
     f ∈ foundFactors acc \/
     exists riskKey score fw,
       contributes frameworks entries riskKey score fw /\ f ∈ factorsOf fw score) /\
  (forall e, e ∈ foundExamples found ->
     e ∈ foundExamples acc \/
     exists riskKey score fw,
       contributes frameworks entries riskKey score fw /\ e ∈ examplesOf u fw).
Proof.
  revert acc. induction entries as [|[riskKey score] entries IH]; intros acc;
    cbn [fold_left Object_entries].
  - repeat split; intros; by left.
  - destruct (IH (collectFindings u frameworks acc (riskKey, score)))
      as (IHm & IHf & IHe).
    assert (Hlift : forall (P : Framework -> Z -> Prop),
      (exists k s fw, contributes frameworks entries k s fw /\ P fw s) ->
      exists k s fw,
        contributes frameworks ((riskKey, score) :: entries) k s fw /\ P fw s).
    { intros P (k & s & fw & Hc & HP). exists k, s, fw.
      split; [by apply contributes_cons | exact HP]. }
    assert (Hhere : forall fw, 50 <= score -> obj_get frameworks riskKey = Some fw ->
      contributes frameworks ((riskKey, score) :: entries) riskKey score fw).
    { intros fw Hge Hfw. split_and!; [left | done | done]. }
    destruct (collectFindings_step u frameworks acc riskKey score)
      as [Hsame|(fw & Hge & Hfw & Hstep)].
    + split_and!; intros x Hx.
      * destruct (IHm x Hx) as [Hacc|Hex]; [left; by rewrite Hsame in Hacc|right].
        exact (Hlift (fun fw s => x ∈ mitigationsOf fw s) Hex).
      * destruct (IHf x Hx) as [Hacc|Hex]; [left; by rewrite Hsame in Hacc|right].
        exact (Hlift (fun fw s => x ∈ factorsOf fw s) Hex).
      * destruct (IHe x Hx) as [Hacc|Hex]; [left; by rewrite Hsame in Hacc|right].
        exact (Hlift (fun fw _ => x ∈ examplesOf u fw) Hex).
    + split_and!; intros x Hx.
      * destruct (IHm x Hx) as [Hacc|Hex].
        -- rewrite Hstep in Hacc. simpl in Hacc.
           apply elem_of_app in Hacc as [?|Hnew]; [by left|right].
           exists riskKey, score, fw. split; [by apply Hhere | exact Hnew].
        -- right. exact (Hlift (fun fw s => x ∈ mitigationsOf fw s) Hex).
      * destruct (IHf x Hx) as [Hacc|Hex].
        -- rewrite Hstep in Hacc. simpl in Hacc.
           apply elem_of_app in Hacc as [?|Hnew]; [by left|right].
           exists riskKey, score, fw. split; [by apply Hhere | exact Hnew].
        -- right. exact (Hlift (fun fw s => x ∈ factorsOf fw s) Hex).
      * destruct (IHe x Hx) as [Hacc|Hex].
        -- rewrite Hstep in Hacc. simpl in Hacc.
           apply elem_of_app in Hacc as [?|Hnew]; [by left|right].
           exists riskKey, score, fw. split; [by apply Hhere | exact Hnew].
        -- right. exact (Hlift (fun fw _ => x ∈ examplesOf u fw) Hex).
Qed.

(** C10. In the checklist path every FINOS risk mitigation, contributing
    factor and relevant example of the response comes from the framework of
    a category whose adjusted risk score is at least 50; the priority of
    each mitigation and the relevance of each factor is 'High' when that
    score is at least 70, 'Medium' when it is at least 60, and 'Low'
    otherwise. *)
Theorem findings_for_elevated_scores
    (checklistQuestions : list ChecklistQuestion)
    (calculateRiskScoresWithGaps :
       JSObject Z -> ChecklistData -> JSObject Z * GapAnalysisResult)
    (u : UserInputs) (applicableRisks : list string)
    (frameworks : JSObject Framework) (checklistData : ChecklistData)
    (call : AnalysisCall) :
  let result :=
    assessment (handleChecklistAssessment checklistQuestions
                  calculateRiskScoresWithGaps u applicableRisks frameworks
                  checklistData call) in
  (forall m, m ∈ riskMitigations result ->
     exists riskKey score fw refs ref,
       (riskKey, score) ∈ Object_entries (riskScores result) /\
       50 <= score /\
       obj_get frameworks riskKey = Some fw /\
       key_mitigations fw = Some refs /\ ref ∈ refs /\
       riskId m = frameworkId fw /\
       mitigationId m = mitigationRefId ref /\
       rated score (priority m)) /\
  (forall f, f ∈ contributingFactors result ->
     exists riskKey score fw refs ref,
       (riskKey, score) ∈ Object_entries (riskScores result) /\
       50 <= score /\
       obj_get frameworks riskKey = Some fw /\
       contributing_factors fw = Some refs /\ ref ∈ refs /\
       factorRiskId f = frameworkId fw /\
       factor f = factorName ref /\
       rated score (relevance f)) /\
  (forall e, e ∈ relevantExamples result ->
     exists riskKey score fw refs ref,
       (riskKey, score) ∈ Object_entries (riskScores result) /\
       50 <= score /\
       obj_get frameworks riskKey = Some fw /\
       examples fw = Some refs /\ ref ∈ refs /\
       exampleRiskId e = frameworkId fw /\
       exampleTitle e = exampleRefTitle ref).
Proof.
  unfold handleChecklistAssessment.
  destruct (calculateRiskScoresWithGaps _ _) as [adjusted gap]. simpl.
  destruct (findings_fold_origin u frameworks adjusted
              {| finosRiskMitigations := []; foundFactors := [];
                 foundExamples := [] |}) as (Hm & Hf & He).
  fold (findings u frameworks adjusted) in Hm, Hf, He.
  split_and!.
  - intros m Hin.
    destruct (Hm m Hin) as [Hnil|(k & s & fw & (Hk & Hs & Hfw) & Hfrom)];
      [by apply elem_of_nil in Hnil|].
    unfold mitigationsOf in Hfrom.
    destruct (key_mitigations fw) as [refs|] eqn:Hrefs;
      [|by apply elem_of_nil in Hfrom].
    apply elem_of_map in Hfrom as (ref & -> & Href).
    exists k, s, fw, refs, ref. simpl.
    split_and!; try done. apply priorityOf_rated.
  - intros f Hin.
    destruct (Hf f Hin) as [Hnil|(k & s & fw & (Hk & Hs & Hfw) & Hfrom)];
      [by apply elem_of_nil in Hnil|].
    unfold factorsOf in Hfrom.
    destruct (contributing_factors fw) as [refs|] eqn:Hrefs;
      [|by apply elem_of_nil in Hfrom].
    apply elem_of_map in Hfrom as (ref & -> & Href).
    apply elem_of_take_elem_of in Href.
    exists k, s, fw, refs, ref. simpl.
    split_and!; try done. apply priorityOf_rated.
  - intros e Hin.
    destruct (He e Hin) as [Hnil|(k & s & fw & (Hk & Hs & Hfw) & Hfrom)];
      [by apply elem_of_nil in Hnil|].
    unfold examplesOf in Hfrom.
    destruct (examples fw) as [refs|] eqn:Hrefs;
      [|by apply elem_of_nil in Hfrom].
    apply elem_of_map in Hfrom as (ref & -> & Href).
    apply elem_of_take_elem_of in Href.
    exists k, s, fw, refs, ref. simpl.
    split_and!; done.
Qed.

Lemma findings_for_elevated_scores_witness :
  exists riskKey score,
    (riskKey, score) ∈ Object_entries (riskScores (assessment sampleResponse)) /\
    50 <= score /\
    rated score "High".
Proof.
  destruct (proj1 (findings_for_elevated_scores sampleCatalog sampleScorer
                     bankAssistant (determineApplicableRisks bankAssistant)
                     sampleFrameworks sampleChecklist AnalysisFailed)
              {| riskId := "AIR-RC-001";
                 riskName := "Information Leaked to Hosted Model";
                 mitigationId := "AIR-PREV-002";
                 mitigationName := "Data Filtering";
                 priority := "High";
                 summary := "Filter data sent to the hosted model." |})
    as (riskKey & score & fw & refs & ref & Hentry & Hge & _ & _ & _ & _ & _ & Hrated).
  - vm_compute. apply list_elem_of_further, list_elem_of_here.
  - exists riskKey, score. split; [exact Hentry|]. split; [exact Hge | exact Hrated].
Defined.

(** ** The checklist form *)

Lemma isFormComplete_spec (checklistQuestions : list ChecklistQuestion)
    (responses : gmap Z ChecklistAnswer) :
  isFormComplete checklistQuestions responses = true <->
  forall q, q ∈ checklistQuestions -> exists a, responses !! id q = Some a.
Proof.
  unfold isFormComplete. rewrite forallb_forall. split.
  - intros Hall q Hq. apply list_elem_of_In in Hq.
    specialize (Hall q Hq). apply bool_decide_eq_true in Hall.
    destruct (responses !! id q) as [a|]; [by exists a | done].
  - intros Hall q Hq. apply list_elem_of_In in Hq.
    destruct (Hall q Hq) as [a Ha]. apply bool_decide_eq_true. congruence.
Qed.

(** The loop appends each question's record to the list of its category. *)
Lemma organizeResponses_fold (responses : gmap Z ChecklistAnswer)
    (qs : list ChecklistQuestion) (d : ChecklistData) :
  fold_left (fun d q => pushResponse d (category q) (responseFor responses q)) qs d
  = {| hallucination := hallucination d ++ recordsFor qs responses Hallucination;
       promptInjection := promptInjection d ++ recordsFor qs responses PromptInjection;
       dataLeakage := dataLeakage d ++ recordsFor qs responses DataLeakage |}.
Proof.
  unfold recordsFor. revert d.
  induction qs as [|q qs IH]; intros d; simpl.
  - rewrite !app_nil_r. by destruct d.
  - rewrite IH. unfold pushResponse, push.
    destruct (category q) eqn:Hc; simpl;
      rewrite ?filter_cons, ?Hc; simpl;
      repeat case_decide; try congruence;
      simpl; rewrite <- ?app_assoc; reflexivity.
Qed.

Lemma organizeResponses_by_category (checklistQuestions : list ChecklistQuestion)
    (responses : gmap Z ChecklistAnswer) :
  organizeResponses checklistQuestions responses
  = {| hallucination := recordsFor checklistQuestions responses Hallucination;
       promptInjection := recordsFor checklistQuestions responses PromptInjection;
       dataLeakage := recordsFor checklistQuestions responses DataLeakage |}.
Proof. unfold organizeResponses. rewrite organizeResponses_fold. reflexivity. Qed.

(** Grouping by category only reorders the catalog. *)
Lemma by_category_Permutation (qs : list ChecklistQuestion) :
  Permutation (filter (fun q => category q = Hallucination) qs
               ++ filter (fun q => category q = PromptInjection) qs
               ++ filter (fun q => category q = DataLeakage) qs) qs.
Proof.
  induction qs as [|q qs IH]; [reflexivity|].
  rewrite !filter_cons.
  destruct (category q) eqn:Hc; repeat case_decide; try congruence; simpl.
  - by apply Permutation_cons.
  - rewrite <- Permutation_middle. by apply Permutation_cons.
  - rewrite app_assoc, <- Permutation_middle, <- app_assoc.
    by apply Permutation_cons.
Qed.

Lemma allResponses_Permutation (checklistQuestions : list ChecklistQuestion)
    (responses : gmap Z ChecklistAnswer) :
  Permutation (allResponses (organizeResponses checklistQuestions responses))
              (map (responseFor responses) checklistQuestions).
Proof.
  rewrite organizeResponses_by_category. unfold allResponses, recordsFor. simpl.
  rewrite <- !map_app. apply Permutation_map, by_category_Permutation.
Qed.

(** The request is sent by a complete form only, and carries the organized
    responses. *)
Lemma submitChecklist_Fetch (checklistQuestions : list ChecklistQuestion)
    (formData : JSValue) (responses : gmap Z ChecklistAnswer)
    (outcome : FetchOutcome) (url : string) (request : AssessRequest) :
  Fetch url request ∈ submitChecklist checklistQuestions formData responses outcome ->
  isFormComplete checklistQuestions responses = true /\
  url = "/api/assess" /\
  request = {| reqUserInputs := formData;
               hasRiskAssessment := true;
               reqChecklistData := organizeResponses checklistQuestions responses |}.
Proof.
  unfold submitChecklist.
  destruct (isFormComplete checklistQuestions responses); simpl.
  - rewrite !elem_of_cons, elem_of_app, list_elem_of_singleton.
    intros [Habs|[Heq|[Hafter|Habs]]]; try discriminate.
    + by injection Heq as -> ->.
    + exfalso. unfold afterFetch in Hafter.
      destruct outcome as [result|];
        [destruct (get_prop result "success") as [ok|]; [destruct (truthy ok)|]|];
        rewrite ?elem_of_cons, ?elem_of_nil in Hafter;
        intuition discriminate.
  - rewrite list_elem_of_singleton. discriminate.
Qed.

Lemma filter_nothing {A} (P : A -> Prop) `{forall x, Decision (P x)} (l : list A) :
  (forall x, x ∈ l -> ~ P x) -> filter P l = [].
Proof.
  induction l as [|x l IH]; intros Hnone; [reflexivity|].
  rewrite filter_cons_False by (apply Hnone; left).
  apply IH. intros y Hy. apply Hnone. by right.
Qed.

Lemma filter_by_id_unique (responses : gmap Z ChecklistAnswer)
    (qs : list ChecklistQuestion) (q : ChecklistQuestion) :
  NoDup (map id qs) -> q ∈ qs ->
  filter (fun r => questionId r = id q) (map (responseFor responses) qs)
  = [responseFor responses q].
Proof.
  induction qs as [|h qs IH]; intros Hnd Hq; [by apply elem_of_nil in Hq|].
  simpl in Hnd. apply NoDup_cons in Hnd as [Hh Hnd].
  assert (Hnone : forall q', id q' = id h ->
    filter (fun r => questionId r = id q') (map (responseFor responses) qs) = []).
  { intros q' Hq'. apply filter_nothing. intros r Hr Hid. apply elem_of_map in Hr as (q0 & -> & Hq0).
    simpl in Hid. apply Hh. apply elem_of_map. exists q0. split; [congruence|done]. }
  simpl. rewrite filter_cons. simpl. case_decide as Hid.
  - rewrite (Hnone q) by done. unfold responseFor. by rewrite Hid.
  - apply elem_of_cons in Hq as [->|Hq]; [done|]. by apply IH.
Qed.

(** C9. The checklist form does not submit unless every catalog question
    has an answer: when some question id lacks a response, submitChecklist
    shows the alert and does nothing else (no request, no state setter).
    Hence every request it sends carries the records of the catalog's
    questions and no others, each with the answer given in the form; with
    distinct question ids, exactly one record per question id. *)
Theorem submitChecklist_complete_only
    (checklistQuestions : list ChecklistQuestion) (formData : JSValue)
    (responses : gmap Z ChecklistAnswer) (outcome : FetchOutcome) :
  ((exists q, q ∈ checklistQuestions /\ responses !! id q = None) ->
   submitChecklist checklistQuestions formData responses outcome
   = [Alert "Please answer all questions before submitting"]) /\
  (forall url request,
     Fetch url request ∈ submitChecklist checklistQuestions formData responses outcome ->
     let sent := allResponses (reqChecklistData request) in
     Permutation (map questionId sent) (map id checklistQuestions) /\
     (forall r, r ∈ sent ->
        exists a, answer r = Some a /\ responses !! questionId r = Some a) /\
     (NoDup (map id checklistQuestions) ->
      forall q, q ∈ checklistQuestions ->
        exists a,
          responses !! id q = Some a /\
          filter (fun r => questionId r = id q) sent
          = [{| questionId := id q; answer := Some a |}])).
Proof.
  split.
  - intros (q & Hq & Hnone). unfold submitChecklist.
    destruct (isFormComplete checklistQuestions responses) eqn:Hc; [|reflexivity].
    exfalso. destruct (proj1 (isFormComplete_spec _ _) Hc q Hq) as [a Ha].
    congruence.
  - intros url request Hsent.
    apply submitChecklist_Fetch in Hsent as (Hc & -> & ->). simpl.
    pose proof (proj1 (isFormComplete_spec _ _) Hc) as Hall.
    pose proof (allResponses_Permutation checklistQuestions responses) as Hperm.
    split_and!.
    + rewrite Hperm, map_map. reflexivity.
    + intros r Hr. rewrite Hperm in Hr.
      apply elem_of_map in Hr as (q & -> & Hq).
      destruct (Hall q Hq) as [a Ha]. exists a. simpl. by rewrite Ha.
    + intros Hnd q Hq. destruct (Hall q Hq) as [a Ha]. exists a.
      split; [exact Ha|].
      apply Permutation_singleton_r.
      rewrite Hperm, (filter_by_id_unique responses _ q Hnd Hq).
      unfold responseFor. by rewrite Ha.
Qed.

Lemma submitChecklist_complete_only_witness :
  submitChecklist sampleCatalog JNull partialResponses FetchRejected
  = [Alert "Please answer all questions before submitting"].
Proof.
  apply (proj1 (submitChecklist_complete_only sampleCatalog JNull
                  partialResponses FetchRejected)).
  exists {| id := 3; category := PromptInjection;
            question := "Are prompts filtered?";
            purpose := "Input filtering"; weight := 30 |}.
  split; [|reflexivity].
  unfold sampleCatalog. rewrite !elem_of_cons. tauto.
Defined.

(** C7, as stated, fails: the checklist data the form sends is an object
    keyed by risk category, not a list of records. *)
Lemma checklist_submission_not_a_list :
  Fetch "/api/assess" sampleRequest
    ∈ submitChecklist sampleCatalog JNull sampleResponses FetchRejected /\
  ~ isResponseList (checklistDataToJSON (reqChecklistData sampleRequest)).
Proof.
  split.
  - vm_compute. apply list_elem_of_further, list_elem_of_here.
  - intros [records Hrecords]. discriminate Hrecords.
Qed.

Lemma recordsFor_record (checklistQuestions : list ChecklistQuestion)
    (responses : gmap Z ChecklistAnswer) (c : RiskCategory) (r : ChecklistResponse) :
  r ∈ recordsFor checklistQuestions responses c ->
  exists q, q ∈ checklistQuestions /\ category q = c /\ r = responseFor responses q.
Proof.
  unfold recordsFor. intros Hr. apply elem_of_map in Hr as (q & -> & Hq).
  apply list_elem_of_filter in Hq as [Hc Hq]. by exists q.
Qed.

(** C7, amended. The checklist submission the form sends to the assessment
    endpoint is an object with one ordered list per risk category
    (hallucination, promptInjection, dataLeakage); each list holds a record
    {questionId, answer} for every catalog question of its category, in
    catalog order, the answer being "yes", "no" or "na"; over the three
    lists there is one record per catalog question. *)
Theorem checklist_submission_by_category
    (checklistQuestions : list ChecklistQuestion) (formData : JSValue)
    (responses : gmap Z ChecklistAnswer) (outcome : FetchOutcome)
    (url : string) (request : AssessRequest) :
  Fetch url request ∈ submitChecklist checklistQuestions formData responses outcome ->
  let records := recordsFor checklistQuestions responses in
  url = "/api/assess" /\
  requestToJSON request
  = JObj [ ("userInputs", formData);
           ("hasRiskAssessment", JBool true);
           ("checklistData",
             JObj [ ("hallucination", JArr (map responseToJSON (records Hallucination)));
                    ("promptInjection", JArr (map responseToJSON (records PromptInjection)));
                    ("dataLeakage", JArr (map responseToJSON (records DataLeakage))) ]) ] /\
  (forall c r, r ∈ records c ->
     exists q a,
       q ∈ checklistQuestions /\ category q = c /\
       responses !! id q = Some a /\
       responseToJSON r
       = JObj [ ("questionId", JInt (id q)); ("answer", JStr (answerText a)) ]) /\
  Permutation (records Hallucination ++ records PromptInjection ++ records DataLeakage)
              (map (responseFor responses) checklistQuestions).
Proof.
  intros Hsent records.
  apply submitChecklist_Fetch in Hsent as (Hc & -> & ->).
  pose proof (proj1 (isFormComplete_spec _ _) Hc) as Hall.
  split; [reflexivity|]. split.
  - unfold requestToJSON, checklistDataToJSON. simpl.
    rewrite organizeResponses_by_category. reflexivity.
  - split.
    + intros c r Hr. apply recordsFor_record in Hr as (q & Hq & Hcat & ->).
      destruct (Hall q Hq) as [a Ha]. exists q, a.
      split_and!; try done. unfold responseToJSON, responseFor. simpl.
      by rewrite Ha.
    + pose proof (allResponses_Permutation checklistQuestions responses) as Hperm.
      rewrite organizeResponses_by_category in Hperm. exact Hperm.
Qed.

Lemma checklist_submission_by_category_witness :
  requestToJSON sampleRequest
  = JObj [ ("userInputs", JNull);
           ("hasRiskAssessment", JBool true);
           ("checklistData",
             JObj [ ("hallucination",
                      JArr (map responseToJSON
                              (recordsFor sampleCatalog sampleResponses Hallucination)));
                    ("promptInjection",
                      JArr (map responseToJSON
                              (recordsFor sampleCatalog sampleResponses PromptInjection)));
                    ("dataLeakage",
                      JArr (map responseToJSON
                              (recordsFor sampleCatalog sampleResponses DataLeakage))) ]) ].
Proof.
  apply (checklist_submission_by_category sampleCatalog JNull sampleResponses
           FetchRejected "/api/assess" sampleRequest).
  vm_compute. apply list_elem_of_further, list_elem_of_here.
Defined.

(** ** The gap analysis scorer *)

Example scenario_partial :
  GapAnalysis.adjustedScores 10 (scenarioCatalog 20 15) scenarioBase
    (<[1 := Yes]> (<[2 := No]> ∅)) !! Hallucination = Some 65.
Proof. vm_compute. reflexivity. Qed.

Example scenario_capped :
  GapAnalysis.adjustedScores 10 (scenarioCatalog 60 40) scenarioBase
    (<[1 := Yes]> (<[2 := Yes]> ∅)) !! Hallucination = Some 10 /\
  GapAnalysis.totalApplied 10 (scenarioCatalog 60 40) scenarioBase
    (<[1 := Yes]> (<[2 := Yes]> ∅)) = 75.
Proof. vm_compute. split; reflexivity. Qed.

Example scenario_unanswered :
  let gap := snd (GapAnalysis.calculateRiskScoresWithGaps 10 sampleCatalog
                    scenarioBase ∅) in
  (gapPercentage gap == 100)%Q /\ totalRiskReduction gap = 0.
Proof. vm_compute. split; reflexivity. Qed.

Lemma rawReduction_nonneg (catalog : list ChecklistQuestion)
    (answers : gmap Z ChecklistAnswer) (c : RiskCategory) :
  (forall q, q ∈ catalog -> 0 <= weight q) ->
  0 <= GapAnalysis.rawReduction catalog answers c.
Proof.
  unfold GapAnalysis.rawReduction. intros Hw.
  induction catalog as [|q catalog IH]; simpl; [lia|].
  assert (0 <= weight q) by (apply Hw; left).
  assert (IH' := IH (fun q' Hq' => Hw q' (list_elem_of_further _ _ _ Hq'))).
  rewrite filter_cons. case_decide; simpl; lia.
Qed.

Lemma adjustedScores_lookup (floor : Z) (catalog : list ChecklistQuestion)
    (baseScores : gmap RiskCategory Z) (answers : gmap Z ChecklistAnswer)
    (c : RiskCategory) :
  GapAnalysis.adjustedScores floor catalog baseScores answers !! c
  = GapAnalysis.adjustedScore floor catalog answers c <$> baseScores !! c.
Proof.
  unfold GapAnalysis.adjustedScores. rewrite map_lookup_imap.
  by destruct (baseScores !! c).
Qed.

(** What is applied is what is subtracted. *)
Lemma appliedReduction_subtracted (floor : Z) (catalog : list ChecklistQuestion)
    (answers : gmap Z ChecklistAnswer) (c : RiskCategory) (b : Z) :
  GapAnalysis.appliedReduction floor catalog answers c b
  = b - GapAnalysis.adjustedScore floor catalog answers c b.
Proof.
  unfold GapAnalysis.appliedReduction, GapAnalysis.adjustedScore.
  destruct (Z.ltb_spec (b - floor) (GapAnalysis.rawReduction catalog answers c)); lia.
Qed.

(** C2, as stated, fails: a base score below the floor is raised to the
    floor, so the adjusted score exceeds it. *)
Lemma adjusted_score_above_low_base :
  exists a b,
    lowBase !! Hallucination = Some b /\
    GapAnalysis.adjustedScores 10 sampleCatalog lowBase ∅ !! Hallucination = Some a /\
    ~ (10 <= a <= b).
Proof.
  exists 10, 5. split; [reflexivity|]. split; [vm_compute; reflexivity | lia].
Qed.

(** A control with a negative weight, answered yes, raises the score above
    its base: the catalog is not checked for such weights. *)
Example negative_weight_raises_score :
  GapAnalysis.adjustedScores 10 (scenarioCatalog (-20) 15) scenarioBase
    (<[1 := Yes]> ∅) !! Hallucination = Some 105.
Proof. vm_compute. reflexivity. Qed.

(** C2, amended. For every category present in the input base scores and
    every checklist, the scorer yields an adjusted score that is at least
    the floor; when the base score is itself at least the floor and no
    catalog weight is negative, the adjusted score does not exceed the base
    score. *)
Theorem adjustedScores_bounds (floor : Z) (catalog : list ChecklistQuestion)
    (baseScores : gmap RiskCategory Z) (answers : gmap Z ChecklistAnswer)
    (c : RiskCategory) (b : Z) :
  baseScores !! c = Some b ->
  exists a,
    fst (GapAnalysis.calculateRiskScoresWithGaps floor catalog baseScores answers) !! c
    = Some a /\
    floor <= a /\
    ((forall q, q ∈ catalog -> 0 <= weight q) -> floor <= b -> a <= b).
Proof.
  intros Hb. simpl. rewrite adjustedScores_lookup, Hb. simpl.
  eexists. split; [reflexivity|]. unfold GapAnalysis.adjustedScore. split; [lia|].
  intros Hw Hfloor. pose proof (rawReduction_nonneg catalog answers c Hw). lia.
Qed.

Lemma adjustedScores_bounds_witness :
  exists a,
    fst (GapAnalysis.calculateRiskScoresWithGaps 10 (scenarioCatalog 20 15)
           scenarioBase (<[1 := Yes]> (<[2 := No]> ∅))) !! Hallucination = Some a /\
    10 <= a <= 85.
Proof.
  destruct (adjustedScores_bounds 10 (scenarioCatalog 20 15) scenarioBase
              (<[1 := Yes]> (<[2 := No]> ∅)) Hallucination 85)
    as (a & Ha & Hfloor & Hbase).
  - reflexivity.
  - exists a. split; [exact Ha|]. split; [exact Hfloor|].
    apply Hbase; [|lia].
    intros q Hq. unfold scenarioCatalog in Hq.
    rewrite !elem_of_cons, elem_of_nil in Hq.
    destruct Hq as [->|[->|[]]]; simpl; lia.
Defined.

(** C3, as stated, fails: with a base score below the floor the applied
    reduction, and with it the total, is negative. *)
Lemma total_reduction_negative_below_floor :
  ~ (0 <= totalRiskReduction
            (snd (GapAnalysis.calculateRiskScoresWithGaps 10 sampleCatalog
                    lowBase ∅))).
Proof. vm_compute. intros Hle. apply Hle. reflexivity. Qed.

Lemma reductionIn_applied (floor : Z) (catalog : list ChecklistQuestion)
    (baseScores : gmap RiskCategory Z) (answers : gmap Z ChecklistAnswer)
    (c : RiskCategory) :
  reductionIn baseScores
    (GapAnalysis.adjustedScores floor catalog baseScores answers) c
  = match baseScores !! c with
    | Some b => GapAnalysis.appliedReduction floor catalog answers c b
    | None => 0
    end.
Proof.
  unfold reductionIn. rewrite adjustedScores_lookup.
  destruct (baseScores !! c) as [b|]; simpl; [|reflexivity].
  by rewrite appliedReduction_subtracted.
Qed.

Lemma appliedReduction_nonneg (floor : Z) (catalog : list ChecklistQuestion)
    (answers : gmap Z ChecklistAnswer) (c : RiskCategory) (b : Z) :
  (forall q, q ∈ catalog -> 0 <= weight q) -> floor <= b ->
  0 <= GapAnalysis.appliedReduction floor catalog answers c b.
Proof.
  intros Hw Hfloor. pose proof (rawReduction_nonneg catalog answers c Hw).
  unfold GapAnalysis.appliedReduction.
  destruct (Z.ltb_spec (b - floor) (GapAnalysis.rawReduction catalog answers c)); lia.
Qed.

(** C3, amended. For every input, gapAnalysis.totalRiskReduction equals the
    sum over the categories of baseScores[c] - adjustedScores[c], the
    reductions applied after flooring; it is non-negative when every base
    score is at least the floor and no catalog weight is negative. *)
Theorem totalRiskReduction_additive (floor : Z) (catalog : list ChecklistQuestion)
    (baseScores : gmap RiskCategory Z) (answers : gmap Z ChecklistAnswer) :
  let scored :=
    GapAnalysis.calculateRiskScoresWithGaps floor catalog baseScores answers in
  totalRiskReduction (snd scored)
  = reductionIn baseScores (fst scored) Hallucination
    + reductionIn baseScores (fst scored) PromptInjection
    + reductionIn baseScores (fst scored) DataLeakage /\
  ((forall q, q ∈ catalog -> 0 <= weight q) ->
   (forall c b, baseScores !! c = Some b -> floor <= b) ->
   0 <= totalRiskReduction (snd scored)).
Proof.
  simpl. rewrite !reductionIn_applied. unfold GapAnalysis.totalApplied. simpl.
  split.
  - destruct (baseScores !! Hallucination), (baseScores !! PromptInjection),
      (baseScores !! DataLeakage); lia.
  - intros Hw Hfloor.
    pose proof (fun c b Hb =>
      appliedReduction_nonneg floor catalog answers c b Hw (Hfloor c b Hb)) as Hnn.
    pose proof (Hnn Hallucination) as Hh.
    pose proof (Hnn PromptInjection) as Hp.
    pose proof (Hnn DataLeakage) as Hd.
    destruct (baseScores !! Hallucination) as [bh|];
      [specialize (Hh bh eq_refl)|clear Hh];
      (destruct (baseScores !! PromptInjection) as [bp|];
        [specialize (Hp bp eq_refl)|clear Hp]);
      (destruct (baseScores !! DataLeakage) as [bd|];
        [specialize (Hd bd eq_refl)|clear Hd]); lia.
Qed.

Lemma totalRiskReduction_additive_witness :
  0 <= totalRiskReduction
         (snd (GapAnalysis.calculateRiskScoresWithGaps 10 (scenarioCatalog 60 40)
                 scenarioBase (<[1 := Yes]> (<[2 := Yes]> ∅)))).
Proof.
  apply (proj2 (totalRiskReduction_additive 10 (scenarioCatalog 60 40)
                  scenarioBase (<[1 := Yes]> (<[2 := Yes]> ∅)))).
  - intros q Hq. unfold scenarioCatalog in Hq.
    rewrite !elem_of_cons, elem_of_nil in Hq.
    destruct Hq as [->|[->|[]]]; simpl; lia.
  - intros c b Hb. unfold scenarioBase in Hb.
    apply lookup_singleton_Some in Hb as [_ <-]. lia.
Defined.

(** ** Recommendations *)

Lemma precedes_heavierFirst (a b : ChecklistQuestion) :
  GapAnalysis.precedes a b = true <-> heavierFirst a b.
Proof.
  unfold GapAnalysis.precedes, heavierFirst.
  rewrite orb_true_iff, andb_true_iff, Z.ltb_lt, Z.eqb_eq, Z.leb_le. reflexivity.
Qed.

Lemma heavierFirst_total (a b : ChecklistQuestion) :
  GapAnalysis.precedes a b = false -> heavierFirst b a.
Proof.
  intros Hnot. apply not_true_iff_false in Hnot.
  rewrite precedes_heavierFirst in Hnot. unfold heavierFirst in *. lia.
Qed.

Lemma heavierFirst_trans (a b c : ChecklistQuestion) :
  heavierFirst a b -> heavierFirst b c -> heavierFirst a c.
Proof. unfold heavierFirst. lia. Qed.

Lemma insertByPriority_Permutation (q : ChecklistQuestion)
    (l : list ChecklistQuestion) :
  Permutation (GapAnalysis.insertByPriority q l) (q :: l).
Proof.
  induction l as [|h t IH]; simpl; [reflexivity|].
  destruct (GapAnalysis.precedes q h); [reflexivity|].
  rewrite IH. apply perm_swap.
Qed.

Lemma sortByPriority_Permutation (l : list ChecklistQuestion) :
  Permutation (GapAnalysis.sortByPriority l) l.
Proof.
  induction l as [|q l IH]; simpl; [reflexivity|].
  rewrite insertByPriority_Permutation. by apply Permutation_cons.
Qed.

Lemma insertByPriority_sorted (q : ChecklistQuestion) (l : list ChecklistQuestion) :
  StronglySorted heavierFirst l ->
  StronglySorted heavierFirst (GapAnalysis.insertByPriority q l).
Proof.
  induction l as [|h t IH]; intros Hs; simpl.
  - constructor; constructor.
  - apply StronglySorted_inv in Hs as [Ht Hh].
    destruct (GapAnalysis.precedes q h) eqn:Hqh.
    + apply precedes_heavierFirst in Hqh. constructor.
      * by constructor.
      * constructor; [exact Hqh|].
        eapply Forall_impl; [exact Hh|]. intros x Hx.
        by eapply heavierFirst_trans.
    + apply heavierFirst_total in Hqh. constructor; [by apply IH|].
      rewrite insertByPriority_Permutation. by constructor.
Qed.

Lemma sortByPriority_sorted (l : list ChecklistQuestion) :
  StronglySorted heavierFirst (GapAnalysis.sortByPriority l).
Proof.
  induction l as [|q l IH]; simpl; [constructor|].
  by apply insertByPriority_sorted.
Qed.

(** C6. generateGapRecommendations yields exactly one recommendation per
    not-implemented question, each carrying the purpose text and the
    category of its question, ordered by descending weight with ties broken
    by ascending question id; in particular, when the missing controls are
    two questions of weight 30 with ids 3 and 7, the recommendation for id 3
    comes first and the one for id 7 second. *)
Theorem generateGapRecommendations_ordered
    (catalog : list ChecklistQuestion) (gap : GapAnalysisResult) :
  let missing :=
    filter (fun q => GapAnalysis.notImplemented gap q = true) catalog in
  let recommendations := GapAnalysis.generateGapRecommendations catalog gap in
  exists ordered : list ChecklistQuestion,
    Permutation ordered missing /\
    StronglySorted heavierFirst ordered /\
    Forall2 (fun r q => questionPurpose r = purpose q /\
                        recCategory r = category q /\
                        recWeight r = weight q)
            recommendations ordered /\
    length recommendations = length missing /\
    (forall a b,
       Permutation missing [a; b] ->
       weight a = 30 -> weight b = 30 -> id a = 3 -> id b = 7 ->
       ordered = [a; b]).
Proof.
  intros missing recommendations.
  exists (GapAnalysis.missingControls catalog gap).
  subst recommendations. unfold GapAnalysis.generateGapRecommendations.
  unfold GapAnalysis.missingControls. fold missing.
  split_and!.
  - apply sortByPriority_Permutation.
  - apply sortByPriority_sorted.
  - induction (GapAnalysis.sortByPriority missing) as [|q l IH]; simpl;
      constructor; [done | exact IH].
  - rewrite length_map. apply Permutation_length, sortByPriority_Permutation.
  - intros a b Hperm Hwa Hwb Hia Hib.
    assert (Hab : GapAnalysis.precedes a b = true).
    { apply precedes_heavierFirst. unfold heavierFirst. lia. }
    assert (Hba : GapAnalysis.precedes b a = false).
    { apply not_true_iff_false. rewrite precedes_heavierFirst.
      unfold heavierFirst. lia. }
    assert (Hcases : missing = [a; b] \/ missing = [b; a]).
    { pose proof (Permutation_length Hperm) as Hlen.
      destruct missing as [|x [|y [|z rest]]]; try discriminate Hlen.
      apply Permutation_length_2 in Hperm as [[-> ->]|[-> ->]]; auto. }
    destruct Hcases as [-> | ->]; simpl; rewrite ?Hab, ?Hba; reflexivity.
Qed.

Lemma generateGapRecommendations_ordered_witness :
  exists ordered : list ChecklistQuestion,
    map id ordered = [3; 7] /\
    Forall2 (fun r q => questionPurpose r = purpose q /\
                        recCategory r = category q /\
                        recWeight r = weight q)
      (GapAnalysis.generateGapRecommendations sampleCatalog
         (snd (GapAnalysis.calculateRiskScoresWithGaps 10 sampleCatalog
                 scenarioBase sampleResponses)))
      ordered.
Proof.
  destruct (generateGapRecommendations_ordered sampleCatalog
              (snd (GapAnalysis.calculateRiskScoresWithGaps 10 sampleCatalog
                      scenarioBase sampleResponses)))
    as (ordered & _ & _ & Hrecs & _ & Htie).
  exists ordered. split; [|exact Hrecs].
  rewrite (Htie
    {| id := 3; category := PromptInjection;
       question := "Are prompts filtered?";
       purpose := "Input filtering"; weight := 30 |}
    {| id := 7; category := DataLeakage;
       question := "Is data masked before it leaves the tenant?";
       purpose := "Data masking"; weight := 30 |});
    try reflexivity.
  vm_compute. apply perm_swap.
Defined.

(** ** extractJsonFromResponse *)

Lemma dropToOpen_Some (s t : string) :
  dropToOpen s = Some t ->
  exists pre rest, s = pre ++ t /\ t = String "{"%char rest.
Proof.
  induction s as [|c s IH]; simpl; [discriminate|].
  destruct (Ascii.eqb_spec c "{"%char) as [->|Hne].
  - intros [= <-]. exists "", s. done.
  - intros Ht. destruct (IH Ht) as (pre & rest & -> & ->).
    exists (String c pre), rest. done.
Qed.

Lemma takeToLastClose_Some (s m : string) :
  takeToLastClose s = Some m ->
  exists mid post, m = mid ++ "}" /\ s = m ++ post.
Proof.
  revert m. induction s as [|c s IH]; intros m; simpl; [discriminate|].
  destruct (takeToLastClose s) as [m'|] eqn:Hs.
  - intros [= <-]. destruct (IH m' eq_refl) as (mid & post & -> & ->).
    exists (String c mid), post. done.
  - destruct (Ascii.eqb_spec c "}"%char) as [->|]; [|discriminate].
    intros [= <-]. exists "", s. done.
Qed.

Lemma takeToLastClose_closed (mid : string) :
  takeToLastClose (mid ++ "}") = Some (mid ++ "}").
Proof.
  induction mid as [|c mid IH]; simpl; [reflexivity|]. by rewrite IH.
Qed.

Lemma extractJsonFromResponse_shape (text : string) :
  exists mid, extractJsonFromResponse text = String "{"%char (mid ++ "}").
Proof.
  unfold extractJsonFromResponse.
  destruct (String.eqb text ""); [by exists ""|].
  destruct (dropToOpen text) as [t|] eqn:Ht; simpl; [|by exists ""].
  destruct (dropToOpen_Some _ _ Ht) as (pre & rest & _ & ->).
  simpl. destruct (takeToLastClose rest) as [m|] eqn:Hm; [|by exists ""].
  destruct (takeToLastClose_Some _ _ Hm) as (mid & post & -> & _).
  by exists mid.
Qed.

(** Whatever the text, what is handed to the parser starts with an opening
    brace and ends with a closing one, and is at least the two braces
    long. *)
Theorem extractJsonFromResponse_braced (text : string) :
  exists mid,
    extractJsonFromResponse text = String "{"%char (mid ++ "}") /\
    (2 <= String.length (extractJsonFromResponse text))%nat.
Proof.
  destruct (extractJsonFromResponse_shape text) as [mid Hmid].
  exists mid. split; [exact Hmid|]. rewrite Hmid. simpl.
  destruct mid; simpl; lia.
Qed.

(** A text that is already one braced block is handed on unchanged, so
    extracting twice is extracting once. *)
Theorem extractJsonFromResponse_idempotent (text mid : string) :
  extractJsonFromResponse (String "{"%char (mid ++ "}"))
  = String "{"%char (mid ++ "}") /\
  extractJsonFromResponse (extractJsonFromResponse text)
  = extractJsonFromResponse text.
Proof.
  assert (Hfix : forall m,
    extractJsonFromResponse (String "{"%char (m ++ "}")) = String "{"%char (m ++ "}")).
  { intros m. unfold extractJsonFromResponse. simpl.
    by rewrite takeToLastClose_closed. }
  split; [apply Hfix|].
  destruct (extractJsonFromResponse_shape text) as [m ->]. apply Hfix.
Qed.

(** The extraction invents nothing: its result is the empty object or a
    contiguous part of the text; it is the empty object when the text has
    no opening brace. *)
Theorem extractJsonFromResponse_within (text : string) :
  (extractJsonFromResponse text = "{}" \/
   exists pre post, text = pre ++ extractJsonFromResponse text ++ post) /\
  (dropToOpen text = None -> extractJsonFromResponse text = "{}").
Proof.
  unfold extractJsonFromResponse. split.
  - destruct (String.eqb text ""); [by left|].
    destruct (dropToOpen text) as [t|] eqn:Ht; simpl; [|by left].
    destruct (takeToLastClose t) as [m|] eqn:Hm; [|by left].
    right. destruct (dropToOpen_Some _ _ Ht) as (pre & rest & -> & _).
    destruct (takeToLastClose_Some _ _ Hm) as (mid & post & _ & ->).
    by exists pre, post.
  - intros ->. simpl. by destruct (String.eqb text "").
Qed.

Lemma extractJsonFromResponse_within_witness :
  extractJsonFromResponse "no json here" = "{}".
Proof.
  apply (proj2 (extractJsonFromResponse_within "no json here")). reflexivity.
Defined.

(** ** More on determineApplicableRisks *)

(** The result in closed form; removing duplicates never removes
    anything. *)
Lemma determineApplicableRisks_closed (u : UserInputs) :
  determineApplicableRisks u
  = ((if hallucinationRule u then ["hallucination"] else [])
     ++ (if promptInjectionRule u
            || negb (hallucinationRule u || promptInjectionRule u || dataLeakageRule u)
         then ["promptInjection"] else [])
     ++ (if dataLeakageRule u then ["dataLeakage"] else []))%list.
Proof.
  unfold determineApplicableRisks.
  destruct (hallucinationRule u), (promptInjectionRule u), (dataLeakageRule u);
    reflexivity.
Qed.

(** The applicable risks always come in the order hallucination,
    promptInjection, dataLeakage, whatever the inputs. *)
Theorem determineApplicableRisks_order (u : UserInputs) :
  sublist (determineApplicableRisks u)
          ["hallucination"; "promptInjection"; "dataLeakage"].
Proof.
  rewrite determineApplicableRisks_closed.
  destruct (hallucinationRule u), (promptInjectionRule u), (dataLeakageRule u);
    simpl; repeat (first [apply sublist_skip_nil | constructor]).
Qed.

Lemma rules_overlap (u : UserInputs) :
  dataLeakageRule u = true ->
  hallucinationRule u = true \/ promptInjectionRule u = true.
Proof.
  unfold dataLeakageRule, hallucinationRule, promptInjectionRule.
  destruct (is_ (aiModel u) "thirdParty"), (is_ (aiModel u) "apiBased"),
    (is_ (dataSensitivity u) "confidential"), (is_ (dataSensitivity u) "restricted"),
    (is_ (industry u) "financial"), (is_ (industry u) "healthcare");
    simpl; rewrite ?orb_true_r; auto; discriminate.
Qed.

(** Data leakage is never assessed alone; a hosted model or sensitive data
    always brings prompt injection and data leakage together, and a
    financial or healthcare system always brings hallucination and data
    leakage together. *)
Theorem determineApplicableRisks_companions (u : UserInputs) :
  let risks := determineApplicableRisks u in
  ("dataLeakage" ∈ risks -> "hallucination" ∈ risks \/ "promptInjection" ∈ risks) /\
  (aiModel u = Some "thirdParty" \/ aiModel u = Some "apiBased" \/
   dataSensitivity u = Some "confidential" \/ dataSensitivity u = Some "restricted" ->
   "promptInjection" ∈ risks /\ "dataLeakage" ∈ risks) /\
  (industry u = Some "financial" \/ industry u = Some "healthcare" ->
   "hallucination" ∈ risks /\ "dataLeakage" ∈ risks).
Proof.
  cbv zeta. rewrite determineApplicableRisks_closed. split_and!.
  - pose proof (rules_overlap u) as Hov.
    destruct (hallucinationRule u), (promptInjectionRule u), (dataLeakageRule u);
      simpl; rewrite ?elem_of_cons, ?elem_of_nil; intros Hd;
      try tauto; try (destruct Hov; [reflexivity|discriminate..]);
      intuition discriminate.
  - intros Hhosted.
    assert (Hp : promptInjectionRule u = true).
    { unfold promptInjectionRule.
      destruct Hhosted as [H|[H|[H|H]]]; apply is_spec in H; rewrite H;
        rewrite ?orb_true_r; reflexivity. }
    assert (Hd : dataLeakageRule u = true).
    { unfold dataLeakageRule.
      destruct Hhosted as [H|[H|[H|H]]]; apply is_spec in H; rewrite H;
        rewrite ?orb_true_r; reflexivity. }
    rewrite Hp, Hd. simpl.
    destruct (hallucinationRule u); simpl; rewrite !elem_of_cons; tauto.
  - intros Hind.
    assert (Hh : hallucinationRule u = true).
    { unfold hallucinationRule.
      destruct Hind as [H|H]; apply is_spec in H; rewrite H;
        rewrite ?orb_true_r; reflexivity. }
    assert (Hd : dataLeakageRule u = true).
    { unfold dataLeakageRule.
      destruct Hind as [H|H]; apply is_spec in H; rewrite H;
        rewrite ?orb_true_r; reflexivity. }
    rewrite Hh, Hd. simpl.
    destruct (promptInjectionRule u); simpl; rewrite !elem_of_cons; tauto.
Qed.

Lemma determineApplicableRisks_companions_witness :
  "promptInjection" ∈ determineApplicableRisks bankAssistant /\
  "dataLeakage" ∈ determineApplicableRisks bankAssistant.
Proof.
  apply (proj1 (proj2 (determineApplicableRisks_companions bankAssistant))).
  left. reflexivity.
Defined.

(** ** loadRelevantFrameworkData *)

Lemma includes_spec (l : list string) (x : string) :
  includes l x = true <-> x ∈ l.
Proof. apply existsb_eqb_elem_of. Qed.

(** The framework files, by risk key. *)
Lemma loadRelevantFrameworkData_lookup
    (readFramework : string -> option Framework) (applicableRisks : list string)
    (frameworks : JSObject Framework) :
  loadRelevantFrameworkData readFramework applicableRisks = Some frameworks ->
  Object_keys frameworks
  = filter (fun k => k ∈ applicableRisks)
           ["hallucination"; "promptInjection"; "dataLeakage"] /\
  (forall k file,
     (k, file) ∈ [ ("hallucination", "Hallucination_and_Inaccurate_Outputs.json");
                   ("promptInjection", "Prompt_Injection.json");
                   ("dataLeakage", "Information_Leaked_To_Hosted_Model.json") ] ->
     obj_get frameworks k = if includes applicableRisks k then readFramework file else None).
Proof.
  unfold loadRelevantFrameworkData.
  pose proof (includes_spec applicableRisks "hallucination") as Hh.
  pose proof (includes_spec applicableRisks "promptInjection") as Hp.
  pose proof (includes_spec applicableRisks "dataLeakage") as Hd.
  rewrite !filter_cons, filter_nil.
  destruct (includes applicableRisks "hallucination") eqn:Eh;
    destruct (includes applicableRisks "promptInjection") eqn:Ep;
    destruct (includes applicableRisks "dataLeakage") eqn:Ed;
    repeat case_decide; try (exfalso; intuition congruence);
    destruct (readFramework "Hallucination_and_Inaccurate_Outputs.json")
      as [fh|] eqn:Rh;
    destruct (readFramework "Prompt_Injection.json") as [fp|] eqn:Rp;
    destruct (readFramework "Information_Leaked_To_Hosted_Model.json")
      as [fd|] eqn:Rd;
    simpl; intros [= <-]; (split; [reflexivity|]);
    intros k file Hk; rewrite !elem_of_cons, elem_of_nil in Hk;
    destruct Hk as [[= -> ->]|[[= -> ->]|[[= -> ->]|[]]]];
    rewrite ?Eh, ?Ep, ?Ed, ?Rh, ?Rp, ?Rd; reflexivity.
Qed.

Lemma loadRelevantFrameworkData_determined
    (readFramework : string -> option Framework) (u : UserInputs)
    (frameworks : JSObject Framework) :
  loadRelevantFrameworkData readFramework (determineApplicableRisks u)
  = Some frameworks ->
  Object_keys frameworks = determineApplicableRisks u.
Proof.
  intros Hload.
  rewrite (proj1 (loadRelevantFrameworkData_lookup _ _ _ Hload)).
  rewrite determineApplicableRisks_closed.
  destruct (hallucinationRule u), (promptInjectionRule u), (dataLeakageRule u);
    reflexivity.
Qed.

(** When the frameworks load, they are loaded for exactly the applicable
    risks among the three, in the fixed order, each from its own file; for
    the risks determineApplicableRisks returns, the keys of the loaded
    frameworks are that very list. *)
Theorem loadRelevantFrameworkData_keys
    (readFramework : string -> option Framework) (u : UserInputs)
    (applicableRisks : list string) (frameworks : JSObject Framework) :
  (loadRelevantFrameworkData readFramework applicableRisks = Some frameworks ->
   Object_keys frameworks
   = filter (fun k => k ∈ applicableRisks)
            ["hallucination"; "promptInjection"; "dataLeakage"]) /\
  (loadRelevantFrameworkData readFramework (determineApplicableRisks u)
   = Some frameworks ->
   Object_keys frameworks = determineApplicableRisks u).
Proof.
  split.
  - intros Hload. apply (loadRelevantFrameworkData_lookup _ _ _ Hload).
  - apply loadRelevantFrameworkData_determined.
Qed.

(** Loading fails exactly when the file of an applicable risk cannot be
    read; the files of the other risks do not matter. *)
Theorem loadRelevantFrameworkData_fails
    (readFramework : string -> option Framework) (applicableRisks : list string) :
  loadRelevantFrameworkData readFramework applicableRisks = None <->
  exists k file,
    (k, file) ∈ [ ("hallucination", "Hallucination_and_Inaccurate_Outputs.json");
                  ("promptInjection", "Prompt_Injection.json");
                  ("dataLeakage", "Information_Leaked_To_Hosted_Model.json") ] /\
    k ∈ applicableRisks /\ readFramework file = None.
Proof.
  unfold loadRelevantFrameworkData.
  pose proof (includes_spec applicableRisks "hallucination") as Hh.
  pose proof (includes_spec applicableRisks "promptInjection") as Hp.
  pose proof (includes_spec applicableRisks "dataLeakage") as Hd.
  split.
  - destruct (includes applicableRisks "hallucination") eqn:Eh.
    + destruct (readFramework "Hallucination_and_Inaccurate_Outputs.json") eqn:Rh;
        simpl.
      2:{ intros _. eexists _, _. split; [apply list_elem_of_here|]. tauto. }
      destruct (includes applicableRisks "promptInjection") eqn:Ep.
      * destruct (readFramework "Prompt_Injection.json") eqn:Rp; simpl.
        2:{ intros _. eexists _, _.
            split; [apply list_elem_of_further, list_elem_of_here|]. tauto. }
        destruct (includes applicableRisks "dataLeakage") eqn:Ed; [|discriminate].
        destruct (readFramework "Information_Leaked_To_Hosted_Model.json") eqn:Rd;
          simpl; [discriminate|].
        intros _. eexists _, _.
        split; [do 2 apply list_elem_of_further; apply list_elem_of_here|]. tauto.
      * simpl.
        destruct (includes applicableRisks "dataLeakage") eqn:Ed; [|discriminate].
        destruct (readFramework "Information_Leaked_To_Hosted_Model.json") eqn:Rd;
          simpl; [discriminate|].
        intros _. eexists _, _.
        split; [do 2 apply list_elem_of_further; apply list_elem_of_here|]. tauto.
    + simpl. destruct (includes applicableRisks "promptInjection") eqn:Ep.
      * destruct (readFramework "Prompt_Injection.json") eqn:Rp; simpl.
        2:{ intros _. eexists _, _.
            split; [apply list_elem_of_further, list_elem_of_here|]. tauto. }
        destruct (includes applicableRisks "dataLeakage") eqn:Ed; [|discriminate].
        destruct (readFramework "Information_Leaked_To_Hosted_Model.json") eqn:Rd;
          simpl; [discriminate|].
        intros _. eexists _, _.
        split; [do 2 apply list_elem_of_further; apply list_elem_of_here|]. tauto.
      * simpl.
        destruct (includes applicableRisks "dataLeakage") eqn:Ed; [|discriminate].
        destruct (readFramework "Information_Leaked_To_Hosted_Model.json") eqn:Rd;
          simpl; [discriminate|].
        intros _. eexists _, _.
        split; [do 2 apply list_elem_of_further; apply list_elem_of_here|]. tauto.
  - intros (k & file & Hk & Hin & Hread).
    rewrite !elem_of_cons, elem_of_nil in Hk.
    destruct Hk as [[= -> ->]|[[= -> ->]|[[= -> ->]|[]]]].
    + apply Hh in Hin. rewrite Hin, Hread. reflexivity.
    + apply Hp in Hin. rewrite Hin, Hread.
      destruct (includes applicableRisks "hallucination"); simpl; [|reflexivity].
      by destruct (readFramework "Hallucination_and_Inaccurate_Outputs.json").
    + apply Hd in Hin. rewrite Hin, Hread.
      destruct (includes applicableRisks "hallucination"),
        (includes applicableRisks "promptInjection"); simpl;
        repeat match goal with
               | |- context [readFramework ?f] =>
                   lazymatch f with
                   | "Information_Leaked_To_Hosted_Model.json" => fail
                   | _ => destruct (readFramework f); simpl
                   end
               end; reflexivity.
Qed.

Lemma loadRelevantFrameworkData_keys_witness :
  exists frameworks,
    loadRelevantFrameworkData readBlank (determineApplicableRisks bankAssistant)
    = Some frameworks /\
    Object_keys frameworks = determineApplicableRisks bankAssistant.
Proof.
  eexists. split; [reflexivity|].
  apply (proj2 (loadRelevantFrameworkData_keys readBlank bankAssistant [] _)).
  reflexivity.
Defined.

Lemma loadRelevantFrameworkData_fails_witness :
  loadRelevantFrameworkData readNothing ["promptInjection"] = None.
Proof.
  apply (proj2 (loadRelevantFrameworkData_fails readNothing ["promptInjection"])).
  exists "promptInjection", "Prompt_Injection.json".
  split; [apply list_elem_of_further, list_elem_of_here|].
  split; [apply list_elem_of_here | reflexivity].
Defined.

(** ** POST *)

Lemma determineApplicableRisks_nonempty (u : UserInputs) :
  determineApplicableRisks u <> [].
Proof.
  rewrite determineApplicableRisks_closed.
  destruct (hallucinationRule u), (promptInjectionRule u), (dataLeakageRule u);
    discriminate.
Qed.

Section RouteProperties.

Variable JSON_parse : string -> option JSValue.
Variable readFramework : string -> option Framework.
Variable checklistQuestions : list ChecklistQuestion.
Variable calculateRiskScoresWithGaps :
  JSObject Z -> ChecklistData -> JSObject Z * GapAnalysisResult.
Variable asChecklistData : JSValue -> ChecklistData.

(** A body that is neither [undefined] nor [null] can be destructured; a
    missing property reads as [undefined]. *)
Lemma get_prop_Some (v : JSValue) (k : string) :
  v <> JUndefined -> v <> JNull -> exists x, get_prop v k = Some x.
Proof. destruct v; simpl; intros; try done; eauto. Qed.

Lemma get_prop_None (v : JSValue) (k : string) :
  get_prop v k = None <-> v = JUndefined \/ v = JNull.
Proof. destruct v; simpl; split; intros; try done; intuition discriminate. Qed.

(** The route on a request that gets past the key check, the inputs and
    the framework files. *)
Lemma POST_dispatch (apiKey : option string) (body userInputs flag data : JSValue)
    (u : UserInputs) (frameworks : JSObject Framework)
    (completion : option Completion) (call : AnalysisCall) :
  get_prop body "userInputs" = Some userInputs ->
  get_prop body "hasRiskAssessment" = Some flag ->
  get_prop body "checklistData" = Some data ->
  String.eqb (or_else apiKey "") "" = false ->
  userInputsOf userInputs = Some u ->
  loadRelevantFrameworkData readFramework (determineApplicableRisks u)
  = Some frameworks ->
  POST JSON_parse readFramework checklistQuestions calculateRiskScoresWithGaps
    asChecklistData apiKey (Some body) completion call
  = if truthy flag && truthy data then
      GapAnalysisOk
        (handleChecklistAssessment checklistQuestions calculateRiskScoresWithGaps
           u (determineApplicableRisks u) frameworks (asChecklistData data) call)
    else
      match handleStandardAssessment JSON_parse u (determineApplicableRisks u)
              frameworks completion with
      | Responded standardBody => StandardOk standardBody
      | Threw => assessmentFailed
      end.
Proof.
  intros Hu Hf Hd Hkey Hin Hload. unfold POST.
  rewrite Hu, Hf, Hd, Hkey, Hin, Hload. reflexivity.
Qed.

(** The configuration error is answered exactly when the body can be
    destructured and the API key is missing or empty; nothing else of the
    request is looked at before. *)
Theorem POST_missing_key (apiKey : option string) (body : JSValue)
    (completion : option Completion) (call : AnalysisCall) :
  POST JSON_parse readFramework checklistQuestions calculateRiskScoresWithGaps
    asChecklistData apiKey (Some body) completion call
  = RouteError 500 "OpenAI API key not configured"
  <-> (body <> JUndefined /\ body <> JNull) /\ (apiKey = None \/ apiKey = Some "").
Proof.
  unfold POST. split.
  - destruct (get_prop body "userInputs") as [ui|] eqn:Hui.
    2:{ destruct (get_prop body "hasRiskAssessment"), (get_prop body "checklistData");
          discriminate. }
    assert (Hbody : body <> JUndefined /\ body <> JNull).
    { split; intros ->; discriminate Hui. }
    destruct (get_prop body "hasRiskAssessment") as [flag|]; [|discriminate].
    destruct (get_prop body "checklistData") as [data|]; [|discriminate].
    destruct (String.eqb_spec (or_else apiKey "") "") as [Hkey|Hkey].
    + intros _. split; [exact Hbody|].
      destruct apiKey as [k|]; [|by left]. right. simpl in Hkey.
      destruct (String.eqb_spec k ""); congruence.
    + destruct (userInputsOf ui) as [u|]; [|discriminate].
      destruct (loadRelevantFrameworkData _ _); [|discriminate].
      destruct (truthy flag && truthy data); [discriminate|].
      destruct (handleStandardAssessment _ _ _ _ _); discriminate.
  - intros [[Hu Hn] Hkey].
    destruct (get_prop_Some body "userInputs" Hu Hn) as [ui ->].
    destruct (get_prop_Some body "hasRiskAssessment" Hu Hn) as [flag ->].
    destruct (get_prop_Some body "checklistData" Hu Hn) as [data ->].
    destruct Hkey as [-> | ->]; reflexivity.
Qed.

(** Every error answer has status 500: a request without a body, without
    userInputs, or whose framework files cannot be read is answered like an
    internal failure, never with a client-error status. *)
Theorem POST_errors_are_500 (apiKey : option string) (requestBody : option JSValue)
    (completion : option Completion) (call : AnalysisCall) :
  (forall status error,
     POST JSON_parse readFramework checklistQuestions calculateRiskScoresWithGaps
    asChecklistData apiKey requestBody completion call = RouteError status error ->
     status = 500 /\
     (error = "OpenAI API key not configured" \/
      error = "Failed to perform assessment")) /\
  (requestBody = None \/ requestBody = Some JNull ->
   POST JSON_parse readFramework checklistQuestions calculateRiskScoresWithGaps
    asChecklistData apiKey requestBody completion call = assessmentFailed) /\
  (forall body,
     requestBody = Some body ->
     String.eqb (or_else apiKey "") "" = false ->
     get_prop body "userInputs" = Some JUndefined \/
     get_prop body "userInputs" = Some JNull ->
     POST JSON_parse readFramework checklistQuestions calculateRiskScoresWithGaps
    asChecklistData apiKey requestBody completion call = assessmentFailed).
Proof.
  unfold POST. split_and!.
  - intros status error.
    destruct requestBody as [body|]; [|intros [= <- <-]; auto].
    destruct (get_prop body "userInputs") as [ui|],
      (get_prop body "hasRiskAssessment") as [flag|],
      (get_prop body "checklistData") as [data|];
      try (intros [= <- <-]; auto).
    destruct (String.eqb (or_else apiKey "") ""); [intros [= <- <-]; auto|].
    destruct (userInputsOf ui) as [u|]; [|intros [= <- <-]; auto].
    destruct (loadRelevantFrameworkData _ _); [|intros [= <- <-]; auto].
    destruct (truthy flag && truthy data); [discriminate|].
    destruct (handleStandardAssessment _ _ _ _ _); [discriminate|].
    intros [= <- <-]; auto.
  - intros [-> | ->]; reflexivity.
  - intros body -> Hkey Hui.
    destruct (get_prop body "hasRiskAssessment") as [flag|] eqn:Hflag.
    2:{ apply get_prop_None in Hflag.
        destruct Hflag as [-> | ->]; destruct Hui; discriminate. }
    destruct (get_prop body "checklistData") as [data|] eqn:Hdata.
    2:{ apply get_prop_None in Hdata.
        destruct Hdata as [-> | ->]; destruct Hui; discriminate. }
    rewrite Hkey. destruct Hui as [-> | ->]; reflexivity.
Qed.

(** The checklist path is taken exactly when both [hasRiskAssessment] and
    [checklistData] are truthy; the flag is not compared with a boolean, so
    any non-empty string, the string no included, selects it. *)
Theorem POST_path (apiKey : option string) (body userInputs flag data : JSValue)
    (completion : option Completion) (call : AnalysisCall) :
  get_prop body "userInputs" = Some userInputs ->
  get_prop body "hasRiskAssessment" = Some flag ->
  get_prop body "checklistData" = Some data ->
  ((exists gapBody,
      POST JSON_parse readFramework checklistQuestions calculateRiskScoresWithGaps
    asChecklistData apiKey (Some body) completion call = GapAnalysisOk gapBody) ->
   truthy flag = true /\ truthy data = true) /\
  ((exists standardBody,
      POST JSON_parse readFramework checklistQuestions calculateRiskScoresWithGaps
    asChecklistData apiKey (Some body) completion call = StandardOk standardBody) ->
   truthy flag = false \/ truthy data = false) /\
  (forall u frameworks,
     String.eqb (or_else apiKey "") "" = false ->
     userInputsOf userInputs = Some u ->
     loadRelevantFrameworkData readFramework (determineApplicableRisks u)
     = Some frameworks ->
     flag = JStr "no" -> truthy data = true ->
     exists gapBody,
       POST JSON_parse readFramework checklistQuestions calculateRiskScoresWithGaps
    asChecklistData apiKey (Some body) completion call = GapAnalysisOk gapBody).
Proof.
  intros Hu Hf Hd. split_and!.
  - intros [gapBody Hgap]. unfold POST in Hgap.
    rewrite Hu, Hf, Hd in Hgap.
    destruct (String.eqb (or_else apiKey "") ""); [discriminate|].
    destruct (userInputsOf userInputs); [|discriminate].
    destruct (loadRelevantFrameworkData _ _); [|discriminate].
    destruct (truthy flag), (truthy data); simpl in Hgap; try done;
      destruct (handleStandardAssessment _ _ _ _ _); discriminate.
  - intros [standardBody Hstd]. unfold POST in Hstd.
    rewrite Hu, Hf, Hd in Hstd.
    destruct (String.eqb (or_else apiKey "") ""); [discriminate|].
    destruct (userInputsOf userInputs); [|discriminate].
    destruct (loadRelevantFrameworkData _ _); [|discriminate].
    destruct (truthy flag), (truthy data); simpl in Hstd; auto; discriminate.
  - intros u frameworks Hkey Hin Hload -> Hdata.
    rewrite (POST_dispatch _ _ _ _ _ _ _ _ _ Hu Hf Hd Hkey Hin Hload).
    simpl. rewrite Hdata. eauto.
Qed.

(** In the standard path the route fails only when the text-generation
    call itself fails; whatever text the call returns, parseable or not,
    the answer is a success. *)
Theorem POST_standard_outcome (apiKey : option string)
    (body userInputs flag data : JSValue) (u : UserInputs)
    (frameworks : JSObject Framework) (completion : option Completion)
    (call : AnalysisCall) :
  get_prop body "userInputs" = Some userInputs ->
  get_prop body "hasRiskAssessment" = Some flag ->
  get_prop body "checklistData" = Some data ->
  String.eqb (or_else apiKey "") "" = false ->
  userInputsOf userInputs = Some u ->
  loadRelevantFrameworkData readFramework (determineApplicableRisks u)
  = Some frameworks ->
  truthy flag && truthy data = false ->
  match completion with
  | None => POST JSON_parse readFramework checklistQuestions calculateRiskScoresWithGaps
    asChecklistData apiKey (Some body) completion call = assessmentFailed
  | Some c =>
      exists standardBody,
        POST JSON_parse readFramework checklistQuestions calculateRiskScoresWithGaps
    asChecklistData apiKey (Some body) completion call = StandardOk standardBody /\
        obj_get standardBody "success" = Some (JBool true) /\
        obj_get standardBody "error" = None
  end.
Proof.
  intros Hu Hf Hd Hkey Hin Hload Hpath.
  rewrite (POST_dispatch _ _ _ _ _ _ _ _ _ Hu Hf Hd Hkey Hin Hload), Hpath.
  destruct completion as [c|]; [|reflexivity].
  simpl. eexists. split; [reflexivity|]. split; reflexivity.
Qed.

(** Every successful answer, of either path, names the same non-empty list
    both as the assessed risks and as the frameworks loaded: the risks
    determineApplicableRisks gives for the posted inputs. *)
Theorem POST_success_lists_risks (apiKey : option string)
    (body userInputs : JSValue) (u : UserInputs)
    (completion : option Completion) (call : AnalysisCall) :
  get_prop body "userInputs" = Some userInputs ->
  userInputsOf userInputs = Some u ->
  determineApplicableRisks u <> [] /\
  (forall gapBody,
     POST JSON_parse readFramework checklistQuestions calculateRiskScoresWithGaps
    asChecklistData apiKey (Some body) completion call = GapAnalysisOk gapBody ->
     success gapBody = true /\
     responseAssessedRisks gapBody = determineApplicableRisks u /\
     assessedRisks (assessment gapBody) = determineApplicableRisks u /\
     frameworksLoaded gapBody = determineApplicableRisks u) /\
  (forall standardBody,
     POST JSON_parse readFramework checklistQuestions calculateRiskScoresWithGaps
    asChecklistData apiKey (Some body) completion call = StandardOk standardBody ->
     obj_get standardBody "success" = Some (JBool true) /\
     obj_get standardBody "assessedRisks"
     = Some (JStrings (determineApplicableRisks u)) /\
     obj_get standardBody "frameworksLoaded"
     = Some (JStrings (determineApplicableRisks u))).
Proof.
  intros Hu Hin. split; [apply determineApplicableRisks_nonempty|].
  unfold POST. rewrite Hu, Hin.
  destruct (get_prop body "hasRiskAssessment") as [flag|];
    [|split; intros; discriminate].
  destruct (get_prop body "checklistData") as [data|];
    [|split; intros; discriminate].
  destruct (String.eqb (or_else apiKey "") ""); [split; intros; discriminate|].
  destruct (loadRelevantFrameworkData readFramework (determineApplicableRisks u))
    as [frameworks|] eqn:Hload; [|split; intros; discriminate].
  pose proof (loadRelevantFrameworkData_determined readFramework u frameworks
                Hload) as Hkeys.
  destruct (truthy flag && truthy data).
  - split; [|intros; discriminate].
    intros gapBody [= <-]. unfold handleChecklistAssessment.
    destruct (calculateRiskScoresWithGaps _ _) as [adjusted gap]. simpl.
    by rewrite Hkeys.
  - destruct completion as [c|]; simpl; (split; [intros; discriminate|]);
      intros standardBody; [|discriminate].
    intros [= <-]. simpl. by rewrite Hkeys.
Qed.

End RouteProperties.

Lemma POST_missing_key_witness :
  samplePOST None (Some bankRequestBody) None
  = RouteError 500 "OpenAI API key not configured".
Proof.
  apply (proj2 (POST_missing_key parseEmptyObjectOnly readBlank sampleCatalog
                  sampleScorer (fun _ => sampleChecklist) None bankRequestBody
                  None AnalysisFailed)).
  split; [split; discriminate | by left].
Defined.

Lemma POST_errors_are_500_witness :
  samplePOST (Some "sk-test") None None = assessmentFailed.
Proof.
  apply (proj1 (proj2 (POST_errors_are_500 parseEmptyObjectOnly readBlank
                         sampleCatalog sampleScorer (fun _ => sampleChecklist)
                         (Some "sk-test") None None AnalysisFailed))).
  by left.
Defined.

Lemma POST_path_witness :
  exists gapBody,
    samplePOST (Some "sk-test") (Some stringFlagBody) None = GapAnalysisOk gapBody.
Proof.
  eapply (proj2 (proj2 (POST_path parseEmptyObjectOnly readBlank sampleCatalog
                          sampleScorer (fun _ => sampleChecklist) (Some "sk-test")
                          stringFlagBody (JObj []) (JStr "no") (JObj []) None
                          AnalysisFailed eq_refl eq_refl eq_refl)));
    reflexivity.
Defined.

Lemma POST_standard_outcome_witness :
  exists standardBody,
    samplePOST (Some "sk-test") (Some bankRequestBody) (Some proseCompletion)
    = StandardOk standardBody /\
    obj_get standardBody "success" = Some (JBool true) /\
    obj_get standardBody "error" = None.
Proof.
  eapply (POST_standard_outcome parseEmptyObjectOnly readBlank sampleCatalog
            sampleScorer (fun _ => sampleChecklist) (Some "sk-test")
            bankRequestBody _ _ _ _ _ (Some proseCompletion) AnalysisFailed);
    reflexivity.
Defined.

Lemma POST_success_lists_risks_witness :
  exists standardBody,
    samplePOST (Some "sk-test") (Some bankRequestBody) (Some proseCompletion)
    = StandardOk standardBody /\
    obj_get standardBody "assessedRisks"
    = Some (JStrings ["hallucination"; "promptInjection"; "dataLeakage"]).
Proof.
  eexists. split; [reflexivity|].
  eapply (proj1 (proj2 (proj2 (proj2
            (POST_success_lists_risks parseEmptyObjectOnly readBlank
               sampleCatalog sampleScorer (fun _ => sampleChecklist)
               (Some "sk-test") bankRequestBody _ _
               (Some proseCompletion) AnalysisFailed eq_refl eq_refl)) _ eq_refl))).
Defined.

(** ** The questionnaire form *)

Lemma afterFormFetch_no_request (outcome : FetchOutcome) (url : string)
    (body : JSValue) :
  PostJSON url body ∉ afterFormFetch outcome.
Proof.
  unfold afterFormFetch.
  destruct outcome as [result|];
    [destruct (get_prop result "success") as [ok|]; [destruct (truthy ok)|]|];
    rewrite ?not_elem_of_cons; split_and?; try discriminate; apply not_elem_of_nil.
Qed.

Lemma submitAssessment_sent (f : FormData) (outcome : FetchOutcome)
    (url : string) (body : JSValue) :
  PostJSON url body ∈ submitAssessment f outcome ->
  isFormValid f = true /\ formHasRiskAssessment f = "no" /\
  url = "/api/assess" /\
  body = JObj [ ("userInputs", formDataToJSON f);
                ("hasRiskAssessment", JBool false) ].
Proof.
  unfold submitAssessment.
  destruct (isFormValid f); simpl.
  2:{ rewrite list_elem_of_singleton. discriminate. }
  destruct (String.eqb_spec (formHasRiskAssessment f) "no") as [Hno|_].
  - rewrite !elem_of_cons, elem_of_app, list_elem_of_singleton.
    intros [Habs|[Heq|[Hafter|Habs]]]; try discriminate.
    + by injection Heq as -> ->.
    + by apply afterFormFetch_no_request in Hafter.
  - destruct (String.eqb (formHasRiskAssessment f) "yes");
      rewrite list_elem_of_singleton; discriminate.
Qed.

(** The questionnaire sends a request exactly when the form is valid and
    the answer to the risk-assessment question is no; the request goes to
    /api/assess with the form data as userInputs, hasRiskAssessment false
    and no checklist data. *)
Theorem submitAssessment_request (f : FormData) (outcome : FetchOutcome) :
  ((exists url body, PostJSON url body ∈ submitAssessment f outcome) <->
   isFormValid f = true /\ formHasRiskAssessment f = "no") /\
  (forall url body,
     PostJSON url body ∈ submitAssessment f outcome ->
     url = "/api/assess" /\
     body = JObj [ ("userInputs", formDataToJSON f);
                   ("hasRiskAssessment", JBool false) ] /\
     get_prop body "checklistData" = Some JUndefined).
Proof.
  pose proof (submitAssessment_sent f outcome) as Hsent.
  split.
  - split.
    + intros (url & body & Hin). destruct (Hsent url body Hin) as (? & ? & _). done.
    + intros [Hvalid Hno]. unfold submitAssessment. rewrite Hvalid, Hno. simpl.
      eexists _, _. apply list_elem_of_further, list_elem_of_here.
  - intros url body Hin. destruct (Hsent url body Hin) as (_ & _ & -> & ->). done.
Qed.

Lemma submitAssessment_request_witness :
  exists url body, PostJSON url body ∈ submitAssessment bankForm FetchRejected.
Proof.
  apply (proj1 (submitAssessment_request bankForm FetchRejected)). done.
Defined.

(** Both forms switch the loading flag on only together with a request and
    always switch it off as their last effect, however the request ends; in
    between the flag is not touched. *)
Theorem loading_flag_is_reset (checklistQuestions : list ChecklistQuestion)
    (formData : JSValue) (responses : gmap Z ChecklistAnswer) (f : FormData)
    (outcome : FetchOutcome) :
  (SetIsLoading true ∈ submitChecklist checklistQuestions formData responses outcome ->
   exists request between,
     submitChecklist checklistQuestions formData responses outcome
     = ([SetIsLoading true; Fetch "/api/assess" request]
        ++ between ++ [SetIsLoading false])%list /\
     forallb (fun e => negb (isLoadingSetter e)) between = true) /\
  (FormSetIsLoading true ∈ submitAssessment f outcome ->
   exists body between,
     submitAssessment f outcome
     = ([FormSetIsLoading true; PostJSON "/api/assess" body]
        ++ between ++ [FormSetIsLoading false])%list /\
     forallb (fun e => negb (isFormLoadingSetter e)) between = true).
Proof.
  split.
  - unfold submitChecklist.
    destruct (isFormComplete checklistQuestions responses); simpl.
    + intros _. eexists _, (afterFetch outcome). split; [reflexivity|].
      unfold afterFetch.
      destruct outcome as [result|];
        [destruct (get_prop result "success") as [ok|]; [destruct (truthy ok)|]|];
        reflexivity.
    + rewrite list_elem_of_singleton. discriminate.
  - unfold submitAssessment.
    destruct (isFormValid f); simpl.
    2:{ rewrite list_elem_of_singleton. discriminate. }
    destruct (String.eqb (formHasRiskAssessment f) "no").
    + intros _. eexists _, (afterFormFetch outcome). split; [reflexivity|].
      unfold afterFormFetch.
      destruct outcome as [result|];
        [destruct (get_prop result "success") as [ok|]; [destruct (truthy ok)|]|];
        reflexivity.
    + destruct (String.eqb (formHasRiskAssessment f) "yes");
        rewrite list_elem_of_singleton; discriminate.
Qed.

Lemma loading_flag_is_reset_witness :
  exists body between,
    submitAssessment bankForm FetchRejected
    = ([FormSetIsLoading true; PostJSON "/api/assess" body]
       ++ between ++ [FormSetIsLoading false])%list /\
    forallb (fun e => negb (isFormLoadingSetter e)) between = true.
Proof.
  apply (proj2 (loading_flag_is_reset sampleCatalog JNull sampleResponses bankForm
                  FetchRejected)).
  vm_compute. apply list_elem_of_here.
Defined.

(** ** From the questionnaire to the route *)

Lemma userInputsOf_form (f : FormData) :
  userInputsOf (formDataToJSON f) = Some (inputsOfForm f).
Proof. reflexivity. Qed.

(** A request of the questionnaire is served by the standard path, from
    the inputs typed into the form: once the key is set and the framework
    files load, the answer is that of handleStandardAssessment, never a gap
    analysis. *)
Theorem questionnaire_takes_standard_path
    (JSON_parse : string -> option JSValue)
    (readFramework : string -> option Framework)
    (checklistQuestions : list ChecklistQuestion)
    (calculateRiskScoresWithGaps :
       JSObject Z -> ChecklistData -> JSObject Z * GapAnalysisResult)
    (asChecklistData : JSValue -> ChecklistData)
    (f : FormData) (outcome : FetchOutcome) (url : string) (body : JSValue)
    (apiKey : option string) (frameworks : JSObject Framework)
    (completion : option Completion) (call : AnalysisCall) :
  PostJSON url body ∈ submitAssessment f outcome ->
  String.eqb (or_else apiKey "") "" = false ->
  loadRelevantFrameworkData readFramework
    (determineApplicableRisks (inputsOfForm f)) = Some frameworks ->
  POST JSON_parse readFramework checklistQuestions calculateRiskScoresWithGaps
    asChecklistData apiKey (Some body) completion call
  = match handleStandardAssessment JSON_parse (inputsOfForm f)
            (determineApplicableRisks (inputsOfForm f)) frameworks completion with
    | Responded standardBody => StandardOk standardBody
    | Threw => assessmentFailed
    end.
Proof.
  intros Hsent Hkey Hload.
  destruct (submitAssessment_sent f outcome url body Hsent) as (_ & _ & _ & ->).
  rewrite (POST_dispatch JSON_parse readFramework checklistQuestions
             calculateRiskScoresWithGaps asChecklistData apiKey _
             (formDataToJSON f) (JBool false) JUndefined (inputsOfForm f)
             frameworks completion call); try reflexivity; assumption.
Qed.

(** A valid questionnaire that reports a prior risk assessment sends
    nothing itself: the page moves to the checklist step holding the form
    data, every request the checklist then sends carries those form data as
    userInputs, and the route serves it by the checklist path from the
    inputs typed into the form. *)
Theorem questionnaire_to_gap_analysis
    (JSON_parse : string -> option JSValue)
    (readFramework : string -> option Framework)
    (checklistQuestions : list ChecklistQuestion)
    (calculateRiskScoresWithGaps :
       JSObject Z -> ChecklistData -> JSObject Z * GapAnalysisResult)
    (asChecklistData : JSValue -> ChecklistData)
    (f : FormData) (outcome : FetchOutcome) :
  isFormValid f = true ->
  formHasRiskAssessment f = "yes" ->
  exists shown st,
    submitAssessment f outcome = [FormOnComplete shown] /\
    handleFormComplete initialHome shown = Some st /\
    currentStep st = StepChecklist /\
    homeFormData st = formDataToJSON f /\
    forall responses outcome' url request apiKey frameworks completion call,
      Fetch url request
        ∈ submitChecklist checklistQuestions (homeFormData st) responses outcome' ->
      String.eqb (or_else apiKey "") "" = false ->
      loadRelevantFrameworkData readFramework
        (determineApplicableRisks (inputsOfForm f)) = Some frameworks ->
      reqUserInputs request = formDataToJSON f /\
      POST JSON_parse readFramework checklistQuestions calculateRiskScoresWithGaps
        asChecklistData apiKey (Some (requestToJSON request)) completion call
      = GapAnalysisOk
          (handleChecklistAssessment checklistQuestions calculateRiskScoresWithGaps
             (inputsOfForm f) (determineApplicableRisks (inputsOfForm f))
             frameworks
             (asChecklistData (checklistDataToJSON (reqChecklistData request)))
             call).
Proof.
  intros Hvalid Hyes.
  eexists _, _. split.
  { unfold submitAssessment. rewrite Hvalid, Hyes. reflexivity. }
  split; [reflexivity|]. split; [reflexivity|]. split; [reflexivity|].
  intros responses outcome' url request apiKey frameworks completion call
    Hsent Hkey Hload.
  apply submitChecklist_Fetch in Hsent as (_ & _ & ->).
  split; [reflexivity|].
  rewrite (POST_dispatch JSON_parse readFramework checklistQuestions
             calculateRiskScoresWithGaps asChecklistData apiKey _
             (formDataToJSON f) (JBool true)
             (checklistDataToJSON (organizeResponses checklistQuestions responses))
             (inputsOfForm f) frameworks completion call);
    try reflexivity; assumption.
Qed.

Lemma questionnaire_takes_standard_path_witness :
  samplePOST (Some "sk-test")
    (Some (JObj [ ("userInputs", formDataToJSON bankForm);
                  ("hasRiskAssessment", JBool false) ]))
    None
  = assessmentFailed.
Proof.
  eapply (questionnaire_takes_standard_path parseEmptyObjectOnly readBlank
            sampleCatalog sampleScorer (fun _ => sampleChecklist) bankForm
            FetchRejected "/api/assess" _ (Some "sk-test") _ None AnalysisFailed).
  - vm_compute. apply list_elem_of_further, list_elem_of_here.
  - reflexivity.
  - reflexivity.
Defined.

Lemma questionnaire_to_gap_analysis_witness :
  exists shown st,
    submitAssessment bankFormAssessed FetchRejected = [FormOnComplete shown] /\
    handleFormComplete initialHome shown = Some st /\
    currentStep st = StepChecklist.
Proof.
  destruct (questionnaire_to_gap_analysis parseEmptyObjectOnly readBlank
              sampleCatalog sampleScorer (fun _ => sampleChecklist)
              bankFormAssessed FetchRejected eq_refl eq_refl)
    as (shown & st & Hsubmit & Hhome & Hstep & _).
  exists shown, st. split; [exact Hsubmit|]. split; [exact Hhome | exact Hstep].
Defined.

(** ** Answering and counting *)

Lemma reachableResponses_dom (checklistQuestions : list ChecklistQuestion)
    (responses : gmap Z ChecklistAnswer) :
  reachableResponses checklistQuestions responses ->
  dom responses ⊆ list_to_set (C := gset Z) (map id checklistQuestions).
Proof.
  induction 1 as [|responses q answer _ IH Hq].
  - rewrite dom_empty_L. set_solver.
  - unfold handleResponseChange. rewrite dom_insert_L.
    apply union_subseteq. split; [|exact IH].
    apply singleton_subseteq_l, elem_of_list_to_set, elem_of_map.
    by exists q.
Qed.

(** The counter and the submit button agree: starting from an empty form
    and answering catalog questions one at a time, with distinct question
    ids, the number of answers never exceeds the number of questions, and
    the form is complete exactly when the two are equal; a complete form
    stays complete whatever is answered next. *)
Theorem checklist_progress (checklistQuestions : list ChecklistQuestion)
    (responses : gmap Z ChecklistAnswer) :
  reachableResponses checklistQuestions responses ->
  NoDup (map id checklistQuestions) ->
  (answeredQuestions responses <= totalQuestions checklistQuestions)%nat /\
  (isFormComplete checklistQuestions responses = true <->
   answeredQuestions responses = totalQuestions checklistQuestions) /\
  (forall questionId answer,
     isFormComplete checklistQuestions responses = true ->
     isFormComplete checklistQuestions
       (handleResponseChange responses questionId answer) = true).
Proof.
  intros Hreach Hnd.
  pose proof (reachableResponses_dom _ _ Hreach) as Hdom.
  unfold answeredQuestions, totalQuestions.
  assert (Hsize : size (list_to_set (C := gset Z) (map id checklistQuestions))
                  = length checklistQuestions).
  { rewrite size_list_to_set by exact Hnd. apply length_map. }
  rewrite <- (size_dom (D := gset Z)) in *. rewrite <- Hsize. split_and!.
  - by apply subseteq_size.
  - rewrite isFormComplete_spec. split.
    + intros Hall. f_equal. apply set_eq. intros k. split; [apply Hdom|].
      rewrite elem_of_list_to_set, elem_of_map. intros (q & -> & Hq).
      apply elem_of_dom. destruct (Hall q Hq) as [a Ha]. by exists a.
    + intros Heq q Hq.
      assert (Hsets : dom responses
                      = list_to_set (C := gset Z) (map id checklistQuestions)).
      { apply set_subseteq_size_eq; [exact Hdom | lia]. }
      assert (Hin : id q ∈ dom responses).
      { rewrite Hsets. apply elem_of_list_to_set, elem_of_map. by exists q. }
      apply elem_of_dom in Hin as [a Ha]. by exists a.
  - intros questionId answer. rewrite !isFormComplete_spec.
    intros Hall q Hq. unfold handleResponseChange.
    destruct (decide (questionId = id q)) as [->|Hne].
    + exists answer. apply lookup_insert_eq.
    + rewrite lookup_insert_ne by exact Hne. by apply Hall.
Qed.

Lemma checklist_progress_witness :
  (answeredQuestions
     (handleResponseChange (handleResponseChange ∅ 1 Yes) 1 No)
   <= totalQuestions sampleCatalog)%nat.
Proof.
  apply (checklist_progress sampleCatalog
           (handleResponseChange (handleResponseChange ∅ 1 Yes) 1 No)).
  - apply (reachable_answer sampleCatalog _
             {| id := 1; category := Hallucination;
                question := "Are model outputs validated before use?";
                purpose := "Output validation"; weight := 20 |} No).
    + apply (reachable_answer sampleCatalog _
               {| id := 1; category := Hallucination;
                  question := "Are model outputs validated before use?";
                  purpose := "Output validation"; weight := 20 |} Yes).
      * apply reachable_start.
      * apply list_elem_of_here.
    + apply list_elem_of_here.
  - simpl. repeat constructor; rewrite ?elem_of_cons, ?elem_of_nil; lia.
Defined.

(** ** What the standard path takes from the model's answer *)

(** The model's answer is used exactly when it parses to an object whose
    overallScore and riskScores are both truthy; an answer that reports an
    overall score of 0 is therefore discarded for the fallback. *)
Theorem parseAssessment_accepts (JSON_parse : string -> option JSValue)
    (responseText : option string) (fields : JSObject JSValue) :
  let cleaned := extractJsonFromResponse (or_else responseText "{}") in
  (parseAssessment JSON_parse responseText = Some fields <->
   JSON_parse cleaned = Some (JObj fields) /\
   truthy (default JUndefined (obj_get fields "overallScore")) = true /\
   truthy (default JUndefined (obj_get fields "riskScores")) = true) /\
  (JSON_parse cleaned = Some (JObj fields) ->
   obj_get fields "overallScore" = Some (JNum 0) ->
   parseAssessment JSON_parse responseText = None).
Proof.
  cbv zeta. unfold parseAssessment. split.
  - destruct (JSON_parse _) as [r|]; simpl;
      [|split; [discriminate|intros []; discriminate]].
    destruct r as [| | | | | |parsed]; simpl;
      try (split; [discriminate|intros []; discriminate]).
    split.
    + destruct (truthy (default JUndefined (obj_get parsed "overallScore")))
        eqn:Ho; [|discriminate].
      destruct (truthy (default JUndefined (obj_get parsed "riskScores")))
        eqn:Hr; [|discriminate].
      simpl. intros [= <-]. done.
    + intros (Heq & Ho & Hr). injection Heq as <-. by rewrite Ho, Hr.
  - intros -> Hzero. simpl. rewrite Hzero. reflexivity.
Qed.

Lemma parseAssessment_accepts_witness :
  parseAssessment
    (fun _ => Some (JObj [("overallScore", JNum 0); ("riskScores", JObj [])]))
    (Some "{}") = None.
Proof.
  apply (proj2 (parseAssessment_accepts
                  (fun _ => Some (JObj [("overallScore", JNum 0);
                                        ("riskScores", JObj [])]))
                  (Some "{}")
                  [("overallScore", JNum 0); ("riskScores", JObj [])]));
    reflexivity.
Defined.

(** The product information of the answer always comes from the posted
    inputs, also when the model's answer carries a productInfo of its own;
    every other property of an accepted answer is passed on untouched. *)
Theorem handleStandardAssessment_productInfo
    (JSON_parse : string -> option JSValue) (u : UserInputs)
    (applicableRisks : list string) (frameworks : JSObject Framework)
    (c : Completion) :
  exists body result,
    handleStandardAssessment JSON_parse u applicableRisks frameworks (Some c)
    = Responded body /\
    obj_get body "assessment" = Some (JObj result) /\
    obj_get result "productInfo" = Some (productInfo u) /\
    (forall fields k,
       parseAssessment JSON_parse (content c) = Some fields ->
       k <> "productInfo" ->
       obj_get result k = obj_get fields k).
Proof.
  unfold handleStandardAssessment.
  eexists _, _. split; [reflexivity|]. split; [reflexivity|]. split.
  - rewrite obj_get_obj_set, String.eqb_refl. reflexivity.
  - intros fields k Hparse Hk. rewrite Hparse, obj_get_obj_set.
    destruct (String.eqb_spec "productInfo" k); congruence.
Qed.

Lemma handleStandardAssessment_productInfo_witness :
  exists body result,
    handleStandardAssessment parseEmptyObjectOnly bankAssistant
      ["promptInjection"] [] (Some proseCompletion) = Responded body /\
    obj_get body "assessment" = Some (JObj result) /\
    obj_get result "productInfo" = Some (productInfo bankAssistant).
Proof.
  destruct (handleStandardAssessment_productInfo parseEmptyObjectOnly bankAssistant
              ["promptInjection"] [] proseCompletion)
    as (body & result & Hbody & Hresult & Hinfo & _).
  exists body, result. split; [exact Hbody|]. split; [exact Hresult | exact Hinfo].
Defined.

(** ** The results view *)

Lemma atLeast_spec (score threshold : Q) :
  atLeast score threshold = true <-> (threshold <= score)%Q.
Proof. apply Qle_bool_iff. Qed.

Lemma maxAtLeast_spec (values : list Q) (threshold : Q) :
  maxAtLeast (Math_max values) threshold = true <->
  exists v, v ∈ values /\ (threshold <= v)%Q.
Proof.
  induction values as [|v values IH]; simpl.
  - split; [discriminate|]. intros (v & Hv & _). by apply elem_of_nil in Hv.
  - destruct (Math_max values) as [m|] eqn:Hm; simpl in *;
      rewrite atLeast_spec.
    + rewrite atLeast_spec in IH. rewrite Q.max_le_iff, IH. split.
      * intros [Hv|(w & Hw & Hle)]; [exists v | exists w];
          (split; [|done]); [left | by right].
      * intros (w & Hw & Hle). apply elem_of_cons in Hw as [->|Hw]; [by left|].
        right. by exists w.
    + split.
      * intros Hv. exists v. split; [left | done].
      * intros (w & Hw & Hle). apply elem_of_cons in Hw as [->|Hw]; [done|].
        exfalso. assert (Hnone : false = true); [|discriminate].
        apply IH. by exists w.
Qed.

Lemma elem_of_Object_values {V} (o : JSObject V) (v : V) :
  v ∈ Object_values o <-> exists k, (k, v) ∈ o.
Proof.
  unfold Object_values. rewrite elem_of_map. split.
  - intros ([k v'] & -> & Hin). by exists k.
  - intros (k & Hin). by exists (k, v).
Qed.

(** One risk score of 70 or more makes the view show Needs Attention on
    red, whatever the compliance score; it shows Excellent or Good only
    when every risk score is below 40, and Excellent only on green. *)
Theorem score_label_follows_risk (riskScores : JSObject Q) (score : Q) :
  ((exists k v, (k, v) ∈ riskScores /\ (70 <= v)%Q) ->
   getScoreLabel riskScores score = "Needs Attention" /\
   getScoreColor riskScores score = redPink) /\
  (getScoreLabel riskScores score = "Excellent" \/
   getScoreLabel riskScores score = "Good" ->
   forall k v, (k, v) ∈ riskScores -> (v < 40)%Q) /\
  (getScoreLabel riskScores score = "Excellent" ->
   getScoreColor riskScores score = greenEmerald).
Proof.
  unfold getScoreLabel, getScoreColor.
  pose proof (maxAtLeast_spec (Object_values riskScores) 70) as H70.
  pose proof (maxAtLeast_spec (Object_values riskScores) 40) as H40.
  split_and!.
  - intros (k & v & Hin & Hv).
    assert (Hmax : maxAtLeast (Math_max (Object_values riskScores)) 70 = true).
    { apply H70. exists v. split; [|done]. apply elem_of_Object_values. by exists k. }
    by rewrite Hmax.
  - destruct (maxAtLeast (Math_max (Object_values riskScores)) 70);
      [intros []; discriminate|].
    destruct (maxAtLeast (Math_max (Object_values riskScores)) 40) eqn:Hmax;
      [intros []; discriminate|].
    intros _ k v Hin. apply Qnot_le_lt. intros Hle.
    assert (Habs : false = true); [|discriminate].
    apply H40. exists v. split; [|done]. apply elem_of_Object_values. by exists k.
  - destruct (maxAtLeast (Math_max (Object_values riskScores)) 70); [discriminate|].
    destruct (maxAtLeast (Math_max (Object_values riskScores)) 40); [discriminate|].
    destruct (atLeast score 80); [reflexivity|].
    destruct (atLeast score 60); [discriminate|].
    destruct (atLeast score 40); discriminate.
Qed.

Lemma score_label_follows_risk_witness :
  getScoreLabel (shownRiskScores shownResult) (shownOverallScore shownResult)
  = "Needs Attention".
Proof.
  apply (proj1 (score_label_follows_risk (shownRiskScores shownResult)
                  (shownOverallScore shownResult))).
  exists "dataLeakage", 72%Q.
  split; [apply list_elem_of_further, list_elem_of_here | discriminate].
Defined.


Lemma getRiskLevel_thresholds (score : Z) :
  (level (getRiskLevel (inject_Z score)) = "High Risk" <-> 70 <= score) /\
  (40 <= score -> level (getRiskLevel (inject_Z score)) <> "Low Risk").
Proof.
  unfold getRiskLevel.
  assert (H70 : atLeast (inject_Z score) 70 = true <-> 70 <= score).
  { rewrite atLeast_spec. change 70%Q with (inject_Z 70).
    rewrite <- Zle_Qle. reflexivity. }
  assert (H40 : atLeast (inject_Z score) 40 = true <-> 40 <= score).
  { rewrite atLeast_spec. change 40%Q with (inject_Z 40).
    rewrite <- Zle_Qle. reflexivity. }
  destruct (atLeast (inject_Z score) 70), (atLeast (inject_Z score) 40); simpl;
    (split; [split|]); intros; try discriminate; try reflexivity;
    try (apply H70; reflexivity); exfalso;
    first [ assert (false = true) by (apply H70; assumption); discriminate
          | assert (false = true) by (apply H40; assumption); discriminate
          | discriminate ].
Qed.



Lemma obj_set_entry {V} (o : JSObject V) (k k' : string) (v v' : V) :
  (k', v') ∈ obj_set o k v -> (k' = k /\ v' = v) \/ (k', v') ∈ o.
Proof.
  induction o as [|[k0 v0] rest IH]; simpl.
  - rewrite list_elem_of_singleton. intros [= -> ->]. by left.
  - destruct (String.eqb_spec k0 k) as [->|Hne]; rewrite !elem_of_cons.
    + intros [[= -> ->]|Hin]; [by left | right; by right].
    + intros [Heq|Hin]; [right; by left|].
      destruct (IH Hin) as [?|?]; [by left | right; by right].
Qed.

Lemma obj_set_nonempty {V} (o : JSObject V) (k : string) (v : V) :
  obj_set o k v <> [].
Proof. destruct o as [|[k0 v0] rest]; simpl; [|destruct (String.eqb k0 k)]; done. Qed.

Lemma Object_fromEntries_fold {V} (g : string -> V) (keys : list string)
    (acc : JSObject V) :
  let result :=
    fold_left (fun o e => obj_set o (fst e) (snd e))
              (map (fun k => (k, g k)) keys) acc in
  (forall k v, (k, v) ∈ result -> v = g k \/ (k, v) ∈ acc) /\
  (keys <> [] \/ acc <> [] -> result <> []).
Proof.
  revert acc. induction keys as [|k0 keys IH]; intros acc; simpl.
  - split; [by right | intros [?|?]; done].
  - destruct (IH (obj_set acc k0 (g k0))) as [IHv IHn]. split.
    + intros k v Hin. destruct (IHv k v Hin) as [?|Hacc]; [by left|].
      destruct (obj_set_entry _ _ _ _ _ Hacc) as [[-> ->]|?]; [by left | by right].
    + intros _. apply IHn. right. apply obj_set_nonempty.
Qed.

Lemma fallbackRiskScore_at_least_60 (u : UserInputs) (risk : string) :
  60 <= fallbackRiskScore u risk.
Proof.
  unfold fallbackRiskScore.
  repeat match goal with |- context [if ?b then _ else _] => destruct b end; lia.
Qed.

(** A fallback assessment is never shown as Excellent or Good: with at
    least one assessed risk, each of its canned risk scores is 60 or more,
    so the view labels it Needs Attention or Moderate Compliance whatever
    its compliance score. *)
Theorem fallback_label (u : UserInputs) (applicableRisks : list string) :
  applicableRisks <> [] ->
  exists scores,
    obj_get (fallbackAssessment u applicableRisks) "riskScores" = Some scores /\
    (forall k v, (k, v) ∈ numbersOf scores -> (60 <= v)%Q) /\
    (getScoreLabel (numbersOf scores) (inject_Z (fallbackComplianceScore u))
     = "Needs Attention" \/
     getScoreLabel (numbersOf scores) (inject_Z (fallbackComplianceScore u))
     = "Moderate Compliance").
Proof.
  intros Hne. eexists. split; [reflexivity|].
  set (entries := Object_fromEntries
                    (map (fun risk => (risk, JInt (fallbackRiskScore u risk)))
                         applicableRisks)).
  destruct (Object_fromEntries_fold (fun risk => JInt (fallbackRiskScore u risk))
              applicableRisks []) as [Hval Hnonempty].
  fold (Object_fromEntries
          (map (fun risk => (risk, JInt (fallbackRiskScore u risk))) applicableRisks))
    in Hval, Hnonempty.
  fold entries in Hval, Hnonempty.
  assert (Hentry : forall k x, (k, x) ∈ entries ->
                   x = JInt (fallbackRiskScore u k)).
  { intros k x Hin. destruct (Hval k x Hin) as [?|Hnil]; [done|].
    by apply elem_of_nil in Hnil. }
  assert (Hall : forall k v, (k, v) ∈ numbersOf (JObj entries) -> (60 <= v)%Q).
  { intros k v Hin. unfold numbersOf in Hin.
    apply list_elem_of_omap in Hin as ([k' x] & Hx & Hsome). simpl in Hsome.
    rewrite (Hentry k' x Hx) in Hsome. injection Hsome as <- <-.
    change 60%Q with (inject_Z 60). rewrite <- Zle_Qle.
    apply fallbackRiskScore_at_least_60. }
  split; [exact Hall|].
  assert (Hmax : maxAtLeast (Math_max (Object_values (numbersOf (JObj entries)))) 40
                 = true).
  { apply maxAtLeast_spec.
    destruct entries as [|[k x] rest] eqn:Hentries;
      [exfalso; apply Hnonempty; [by left | reflexivity]|].
    assert (Hx : x = JInt (fallbackRiskScore u k)) by (apply Hentry; left).
    exists (inject_Z (fallbackRiskScore u k)). split.
    - apply elem_of_Object_values. exists k. unfold numbersOf.
      apply list_elem_of_omap. exists (k, x). split; [left|]. simpl. by rewrite Hx.
    - change 40%Q with (inject_Z 40). rewrite <- Zle_Qle.
      pose proof (fallbackRiskScore_at_least_60 u k). lia. }
  unfold getScoreLabel. rewrite Hmax.
  destruct (maxAtLeast _ 70); [by left | by right].
Qed.

Lemma fallback_label_witness :
  exists scores,
    obj_get (fallbackAssessment bankAssistant ["promptInjection"]) "riskScores"
    = Some scores /\
    (getScoreLabel (numbersOf scores) (inject_Z (fallbackComplianceScore bankAssistant))
     = "Needs Attention" \/
     getScoreLabel (numbersOf scores) (inject_Z (fallbackComplianceScore bankAssistant))
     = "Moderate Compliance").
Proof.
  destruct (fallback_label bankAssistant ["promptInjection"])
    as (scores & Hscores & _ & Hlabel); [discriminate|].
  exists scores. split; [exact Hscores | exact Hlabel].
Defined.

(** ** The e-mail report *)

(** Without a manager e-mail address the report is not sent: the alert is
    the only effect. With one, exactly one request goes to /api/send-email,
    between switching the sending flag on and switching it off as the last
    effect, a single status is shown, and the timer that clears it runs
    5000 ms after a success and 8000 ms after anything else. *)
Theorem emailReport_effects (r : DisplayResult) (outcome : FetchOutcome) :
  (productField r shownProductManagerEmail = None \/
   productField r shownProductManagerEmail = Some "" ->
   emailReport r outcome
   = [EmailAlert "Product manager email not available. Cannot send email."]) /\
  (forall email,
     productField r shownProductManagerEmail = Some email -> email <> "" ->
     exists status milliseconds,
       emailReport r outcome
       = [ SetIsEmailSending true; SetEmailStatus None;
           PostEmail "/api/send-email" (emailData r);
           SetEmailStatus (Some status); ClearStatusAfter milliseconds;
           SetIsEmailSending false ] /\
       (milliseconds = 5000 \/ milliseconds = 8000) /\
       (milliseconds = 5000 <-> exists message, status = StatusSent message)).
Proof.
  unfold emailReport. split.
  - intros [-> | ->]; reflexivity.
  - intros email -> Hne.
    assert (Hemail : String.eqb (or_else (Some email) "") "" = false).
    { unfold or_else. destruct (String.eqb_spec email "") as [->|_]; [done|].
      by apply String.eqb_neq. }
    rewrite Hemail. unfold afterEmailFetch.
    destruct outcome as [responseData|];
      [destruct (get_prop responseData "success") as [ok|]; [destruct (truthy ok)|]|];
      simpl; eexists _, _; (split; [reflexivity|]); (split; [auto|]);
      split; try discriminate; eauto; intros [message Hm]; discriminate.
Qed.

Lemma emailReport_effects_witness :
  emailReport anonymousResult FetchRejected
  = [EmailAlert "Product manager email not available. Cannot send email."].
Proof.
  apply (proj1 (emailReport_effects anonymousResult FetchRejected)).
  left. reflexivity.
Defined.

(** ** More on the checklist path *)

Lemma obj_set_fresh {V} (o : JSObject V) (k : string) (v : V) :
  k ∉ Object_keys o -> obj_set o k v = (o ++ [(k, v)])%list.
Proof.
  unfold Object_keys. induction o as [|[k0 v0] rest IH]; simpl; [done|].
  rewrite not_elem_of_cons. intros [Hne Hrest].
  destruct (String.eqb_spec k0 k); [congruence|]. by rewrite IH.
Qed.

Lemma baseRiskScores_fold_NoDup (u : UserInputs) (risks : list string)
    (acc : JSObject Z) :
  NoDup (Object_keys acc ++ risks) ->
  fold_left (fun o r => obj_set o r (baseScoreOf u r)) risks acc
  = (acc ++ map (fun r => (r, baseScoreOf u r)) risks)%list.
Proof.
  revert acc. induction risks as [|r risks IH]; intros acc Hnd; simpl.
  - by rewrite app_nil_r.
  - assert (Hfresh : r ∉ Object_keys acc).
    { apply NoDup_app in Hnd as (_ & Hdisj & _). intros Hin.
      apply (Hdisj r Hin). left. }
    rewrite (obj_set_fresh _ _ _ Hfresh), IH.
    + by rewrite <- app_assoc.
    + unfold Object_keys in *. rewrite map_app. simpl.
      rewrite <- app_assoc. exact Hnd.
Qed.

(** Before any control is credited every assessed risk is high: for the
    risks determineApplicableRisks returns, the base scores list exactly
    those risks, in the same order, each with a score between 70 and 85,
    which the view would show as High Risk. *)
Theorem baseRiskScores_all_high (u : UserInputs) :
  Object_keys (baseRiskScores u (determineApplicableRisks u))
  = determineApplicableRisks u /\
  (forall risk score,
     (risk, score) ∈ baseRiskScores u (determineApplicableRisks u) ->
     70 <= score <= 85 /\
     level (getRiskLevel (inject_Z score)) = "High Risk").
Proof.
  assert (Heq : baseRiskScores u (determineApplicableRisks u)
                = map (fun r => (r, baseScoreOf u r)) (determineApplicableRisks u)).
  { unfold baseRiskScores. rewrite baseRiskScores_fold_NoDup; [reflexivity|].
    simpl. rewrite determineApplicableRisks_closed.
    destruct (hallucinationRule u), (promptInjectionRule u), (dataLeakageRule u);
      simpl; repeat constructor; rewrite ?elem_of_cons, ?elem_of_nil;
      intuition discriminate. }
  rewrite Heq. split.
  - unfold Object_keys. rewrite map_map. simpl. apply map_id.
  - intros risk score Hin. apply elem_of_map in Hin as (r & [= -> ->] & _).
    assert (Hrange : 70 <= baseScoreOf u r <= 85).
    { unfold baseScoreOf.
      repeat match goal with |- context [if ?b then _ else _] => destruct b end;
        lia. }
    split; [exact Hrange|]. apply getRiskLevel_thresholds. lia.
Qed.

Lemma length_filter_all {A} (P : A -> Prop) `{forall x, Decision (P x)}
    (l : list A) :
  length (filter P l) = length l <-> forall x, x ∈ l -> P x.
Proof.
  induction l as [|x l IH]; simpl.
  - split; [intros _ y Hy; by apply elem_of_nil in Hy | done].
  - pose proof (length_filter P l) as Hle. rewrite filter_cons.
    case_decide as HP; simpl.
    + split.
      * intros Heq y Hy. apply elem_of_cons in Hy as [->|Hy]; [done|].
        apply IH; [lia | done].
      * intros Hall. f_equal. apply IH. intros y Hy. apply Hall. by right.
    + split; [lia|]. intros Hall. exfalso. apply HP, Hall. left.
Qed.

Lemma length_omap_filter {A B} (f : A -> option B) (P : A -> Prop)
    `{forall x, Decision (P x)} (l : list A) :
  (forall x, is_Some (f x) -> P x) ->
  (length (omap f l) <= length (filter P l))%nat.
Proof.
  intros HfP. induction l as [|x l IH]; csimpl; [lia|].
  rewrite filter_cons. destruct (f x) as [y|] eqn:Hfx; csimpl.
  - rewrite decide_True by (apply HfP; rewrite Hfx; eauto). csimpl. lia.
  - case_decide; csimpl; lia.
Qed.

Lemma length_omap_exclusive {A B} (f g : A -> option B) (l : list A) :
  (forall x, f x = None \/ g x = None) ->
  (length (omap f l) + length (omap g l) <= length l)%nat.
Proof.
  intros Hex. induction l as [|x l IH]; csimpl; [lia|].
  destruct (f x) eqn:Hf, (g x) eqn:Hg; csimpl; try lia.
  destruct (Hex x); congruence.
Qed.

(** The summary never counts more implemented controls than controls, and
    it counts them all as implemented exactly when every recorded status
    is; the counts the fallback analysis text quotes leave out the
    statuses whose question id is not in the catalog, so they never exceed
    the summary's. *)
Theorem gap_summary_counts
    (checklistQuestions : list ChecklistQuestion)
    (calculateRiskScoresWithGaps :
       JSObject Z -> ChecklistData -> JSObject Z * GapAnalysisResult)
    (u : UserInputs) (applicableRisks : list string)
    (frameworks : JSObject Framework) (checklistData : ChecklistData)
    (call : AnalysisCall) :
  let gap :=
    snd (calculateRiskScoresWithGaps (baseRiskScores u applicableRisks)
           checklistData) in
  let summary :=
    gapAnalysis (assessment (handleChecklistAssessment checklistQuestions
                               calculateRiskScoresWithGaps u applicableRisks
                               frameworks checklistData call)) in
  (implementedControls summary <= totalControls summary)%nat /\
  (implementedControls summary = totalControls summary <->
   forall e, e ∈ implementationStatus gap -> implemented (snd e) = true) /\
  (length (controlsWith checklistQuestions gap true)
   <= implementedControls summary)%nat /\
  (length (controlsWith checklistQuestions gap true)
   + length (controlsWith checklistQuestions gap false)
   <= totalControls summary)%nat.
Proof.
  unfold handleChecklistAssessment.
  destruct (calculateRiskScoresWithGaps _ _) as [adjusted gap]. simpl.
  unfold controlsWith. split_and!.
  - apply length_filter.
  - apply length_filter_all.
  - apply length_omap_filter. intros e [text Htext].
    destruct (List.find (fun q => id q =? fst e) checklistQuestions);
      [|discriminate].
    destruct (implemented (snd e)); [reflexivity | discriminate].
  - apply length_omap_exclusive. intros e.
    destruct (List.find (fun q => id q =? fst e) checklistQuestions); [|by left].
    destruct (implemented (snd e)); simpl; [by right | by left].
Qed.

Lemma baseRiskScores_all_high_witness :
  level (getRiskLevel (inject_Z 85)) = "High Risk".
Proof.
  apply (proj2 (baseRiskScores_all_high bankAssistant) "hallucination" 85).
  vm_compute. apply list_elem_of_here.
Defined.

Lemma gap_summary_counts_witness :
  (implementedControls (gapAnalysis (assessment sampleResponse))
   <= totalControls (gapAnalysis (assessment sampleResponse)))%nat.
Proof.
  apply (proj1 (gap_summary_counts sampleCatalog sampleScorer bankAssistant
                  (determineApplicableRisks bankAssistant) sampleFrameworks
                  sampleChecklist AnalysisFailed)).
Defined.



